(** * The sudospawner mediator, embedded from [sudospawner/mediator.py]

    The mediator is a short Python script run through sudo.  It reads one
    JSON request on standard input and either signals a batch job ([kill])
    or submits a new one ([spawn]).  The embedding below follows the script
    function by function.  Python local variables that are assigned on some
    paths only are [option] values, exceptions are outcomes of a small
    state-and-exception monad, and everything the script reaches outside
    itself (the JSON decoder, the batch commands, the XML reader, the
    interpreter path, the user name) is a field of a [world] record.

    The executors are typed as the protocol types them: [pid] and [signal]
    are integers, [args] a list of strings, [env] a mapping from strings to
    strings.  [main] decodes any JSON value and binds the keywords as Python
    does; a request whose values have other types leaves the embedding
    ([Untyped]).  [os.fork()] is taken to succeed, and
    [parse_command_line()] to find no option that would end the run. *)

From Stdlib Require Import ZArith Ascii String.
From stdpp Require Import strings gmap list pretty.

#[local] Open Scope Z_scope.
#[local] Set Warnings "-register-all".

(** ** Python text operations the script uses *)

(** [needle in hay] for two [str] values: substring test. *)
Fixpoint py_in (needle hay : string) : bool :=
  String.prefix needle hay ||
  match hay with
  | EmptyString => false
  | String _ rest => py_in needle rest
  end.

(** [s.split(sep)] for a one-character separator: every occurrence cuts,
    so the result always has one piece more than there are separators. *)
Fixpoint py_split (sep : ascii) (s : string) : list string :=
  match s with
  | EmptyString => [EmptyString]
  | String c rest =>
      if (c =? sep)%char then EmptyString :: py_split sep rest
      else match py_split sep rest with
           | piece :: pieces => String c piece :: pieces
           | [] => [String c EmptyString]
           end
  end.

(** White space of [bytes.strip()]: space, tab, line feed, vertical tab,
    form feed, carriage return.  [int()] skips the same six characters on
    both ends of an ASCII string, and no others. *)
Definition bytes_isspace (c : ascii) : bool :=
  let n := Z.of_nat (nat_of_ascii c) in
  (n =? 32) || ((9 <=? n) && (n <=? 13)).

Fixpoint lstrip (sp : ascii → bool) (s : string) : string :=
  match s with
  | String c rest => if sp c then lstrip sp rest else s
  | EmptyString => EmptyString
  end.

Fixpoint rstrip (sp : ascii → bool) (s : string) : string :=
  match s with
  | String c rest =>
      match rstrip sp rest with
      | EmptyString => if sp c then EmptyString else String c EmptyString
      | kept => String c kept
      end
  | EmptyString => EmptyString
  end.

Definition strip (sp : ascii → bool) (s : string) : string :=
  rstrip sp (lstrip sp s).

Definition digit_value (c : ascii) : option Z :=
  let n := Z.of_nat (nat_of_ascii c) in
  if (48 <=? n) && (n <=? 57) then Some (n - 48) else None.

(** The digits of a decimal literal after its first digit; a single
    underscore may stand between two digits. *)
Fixpoint int_digits (acc : Z) (s : string) : option Z :=
  match s with
  | EmptyString => Some acc
  | String "_" (String c rest) =>
      d ← digit_value c; int_digits (acc * 10 + d) rest
  | String c rest =>
      d ← digit_value c; int_digits (acc * 10 + d) rest
  end.

(** [int(s)] in base ten on an ASCII string; [None] is [ValueError]. *)
Definition py_int (s : string) : option Z :=
  let s := strip bytes_isspace s in
  let '(negative, body) :=
    match s with
    | String "-" rest => (true, rest)
    | String "+" rest => (false, rest)
    | _ => (false, s)
    end in
  match body with
  | EmptyString => None
  | String c rest =>
      d ← digit_value c;
      n ← int_digits d rest;
      Some (if negative : bool then - n else n)
  end.

(** [bytes.decode('ascii')] succeeds when every byte is below 128. *)
Fixpoint is_ascii (s : string) : bool :=
  match s with
  | EmptyString => true
  | String c rest => (nat_of_ascii c <? 128)%nat && is_ascii rest
  end.

(** ** Results and their JSON text *)

(** The two dictionaries the script hands to [finish]:
    [{'alive': alive}] and [{'pid': int(jobid)}]. *)
Inductive result :=
| KillResult (alive : bool)
| SpawnResult (pid : Z).

Definition dquote : string := String (ascii_of_nat 34) EmptyString.

(** [json.dump] of these dictionaries with the default separators. *)
Definition json_dump (data : result) : string :=
  match data with
  | KillResult alive =>
      "{" +:+ dquote +:+ "alive" +:+ dquote +:+ ": "
          +:+ (if alive then "true" else "false") +:+ "}"
  | SpawnResult pid =>
      "{" +:+ dquote +:+ "pid" +:+ dquote +:+ ": " +:+ pretty pid +:+ "}"
  end.

(** ** Decoded JSON values

    What [json.load] returns: [None], [bool], [int], [float], [str], [list]
    and [dict].  A [float] keeps the text of its literal; the script never
    computes with one. *)
Inductive json :=
| JNull
| JBool (b : bool)
| JInt (n : Z)
| JFloat (literal : string)
| JStr (s : string)
| JArr (items : list json)
| JObj (members : gmap string json).

(** ** Exceptions, outcomes and the process state *)

Inductive exn :=
| SystemExit (code : Z)
| ValueError (msg : string)
| UnicodeDecodeError (msg : string)
| KeyError (key : string)
| IndexError
| TypeError (msg : string)
| AttributeError (msg : string)
| UnboundLocalError (name : string)
| OSError (program : string)
| CalledProcessError (returncode : Z).

(** [Untyped] marks a run that continues in Python with values outside
    the types of the protocol (a [pid] that is a list, an [env] holding a
    number, ...).  The embedding follows such a run no further. *)
Inductive outcome (A : Type) :=
| Ok (a : A)
| Raise (e : exn)
| Untyped.
Arguments Ok {A} a.
Arguments Raise {A} e.
Arguments Untyped {A}.

Inductive level := DEBUG | INFO | WARNING | ERROR.

Inductive logarg :=
| ArgInt (n : Z)
| ArgStr (s : string)
| ArgData (d : result).

(** A call on [app_log]: level, format string and arguments as passed
    (logging formats them later, if the record is emitted at all). *)
Record log_record := LogRecord {
  lr_level : level;
  lr_msg : string;
  lr_args : list logarg
}.

(** One external program start: [Popen] or [check_output]. *)
Record invocation := Invocation {
  inv_argv : list string;
  inv_cwd : option string;
  inv_env : option (gmap string string);
  inv_input : option string
}.

(** What a started program leaves behind: exit code and captured output. *)
Record completed := Completed {
  returncode : Z;
  captured : string
}.

(** The state of one process: text written to standard output, text
    written to the write end of the pipe, the calls made on [app_log], the
    external programs started on the host by this run (by the process or
    by its child), and whether the standard streams have been redirected
    to the null device. *)
Record state := State {
  stdout : string;
  pipe : string;
  log : list log_record;
  calls : list invocation;
  detached : bool
}.

Definition initial : state :=
  {| stdout := ""; pipe := ""; log := []; calls := []; detached := false |}.

Definition M (A : Type) : Type := state → outcome A * state.

#[global] Instance M_ret : MRet M := λ A (a : A) st, (Ok a, st).

#[global] Instance M_bind : MBind M := λ A B (f : A → M B) (c : M A) st,
  match c st with
  | (Ok a, st') => f a st'
  | (Raise e, st') => (Raise e, st')
  | (Untyped, st') => (Untyped, st')
  end.

Definition raise {A} (e : exn) : M A := λ st, (Raise e, st).

Definition untyped {A} : M A := λ st, (Untyped, st).

(** [try: body  except ValueError as e: handler(e)].  [UnicodeDecodeError]
    is a subclass of [ValueError]. *)
Definition try_except_ValueError {A} (body : M A) (handler : string → M A) : M A :=
  λ st,
    match body st with
    | (Raise (ValueError msg), st') => handler msg st'
    | (Raise (UnicodeDecodeError msg), st') => handler msg st'
    | other => other
    end.

(** Reading a local variable that may not have been assigned. *)
Definition read_local {A} (name : string) (v : option A) : M A :=
  match v with
  | Some a => mret a
  | None => raise (UnboundLocalError name)
  end.

(** The four ways a step changes the state. *)
Definition logged (records : list log_record) (st : state) : state :=
  {| stdout := stdout st; pipe := pipe st; log := log st ++ records;
     calls := calls st; detached := detached st |}.

Definition called (i : invocation) (st : state) : state :=
  {| stdout := stdout st; pipe := pipe st; log := log st;
     calls := calls st ++ [i]; detached := detached st |}.

Inductive stream := sys_stdout | pipe_w.

(** Once the standard streams point at the null device, what is written
    to [sys.stdout] is lost. *)
Definition written (fp : stream) (text : string) (st : state) : state :=
  match fp with
  | sys_stdout =>
      {| stdout := if detached st then stdout st else stdout st +:+ text;
         pipe := pipe st; log := log st;
         calls := calls st; detached := detached st |}
  | pipe_w =>
      {| stdout := stdout st; pipe := pipe st +:+ text; log := log st;
         calls := calls st; detached := detached st |}
  end.

Definition redirected (st : state) : state :=
  {| stdout := stdout st; pipe := pipe st; log := log st;
     calls := calls st; detached := true |}.

Definition app_log (lv : level) (msg : string) (args : list logarg) : M unit :=
  λ st, (Ok (), logged [LogRecord lv msg args] st).

(** [fp.write(text)] *)
Definition write (fp : stream) (text : string) : M unit :=
  λ st, (Ok (), written fp text st).

(** ** The world outside the script *)

Record world := World {
  (** [sys.executable] *)
  sys_executable : string;
  (** [getpass.getuser()] *)
  getuser : string;
  (** [os.path.expanduser('~')] *)
  home : string;
  (** [json.load] on the text of standard input: the decoded value, or the
      message of the [ValueError] it raises *)
  json_load : string → json + string;
  (** running an external program to completion; [None] when it cannot be
      started *)
  run : invocation → option completed;
  (** [BeautifulSoup(output, 'xml').find('job_state')] and then [.string]:
      [None] when there is no such element, [Some None] when the element
      has no single string *)
  find_job_state : string → option (option string)
}.

(** [Popen(...)] followed by [communicate]. *)
Definition Popen (W : world) (i : invocation) : M completed :=
  λ st,
    match run W i with
    | Some c => (Ok c, called i st)
    | None => (Raise (OSError (default "" (head (inv_argv i)))), called i st)
    end.

(** [subprocess.check_output(argv)]: a non-zero exit raises. *)
Definition check_output (W : world) (argv : list string) : M string :=
  c ← Popen W {| inv_argv := argv; inv_cwd := None;
                 inv_env := None; inv_input := None |};
  if returncode c =? 0 then mret (captured c)
  else raise (CalledProcessError (returncode c)).

(** ** [finish] *)

(** The closing [sys.stdout.flush()] adds no text. *)
Definition finish (data : result) (fp : stream) : M unit :=
  write fp (json_dump data) ;;
  app_log DEBUG "mediator result: %s" [ArgData data].

(** ** [kill] *)

(** [check_output(["qstat", "-x", str(pid)])] *)
Definition qstat (pid : Z) : invocation :=
  {| inv_argv := ["qstat"; "-x"; pretty pid]; inv_cwd := None;
     inv_env := None; inv_input := None |}.

(** [Popen(["qdel", str(pid)], cwd=os.path.expanduser('~'), ...)] *)
Definition qdel (W : world) (pid : Z) : invocation :=
  {| inv_argv := ["qdel"; pretty pid]; inv_cwd := Some (home W);
     inv_env := None; inv_input := None |}.

Definition kill (W : world) (pid signal : Z) : M unit :=
  app_log DEBUG "Sending signal %i to %i" [ArgInt signal; ArgInt pid] ;;
  alive ← (if signal =? 0 then
             output ← check_output W (inv_argv (qstat pid));
             match find_job_state W output with
             | None => raise (AttributeError "'NoneType' object has no attribute 'string'")
             | Some state => mret (Some (bool_decide (state = Some "R")))
             end
           else mret None);
  alive ← (if bool_decide (signal ∈ [2; 9; 15]) then
             p ← Popen W (qdel W pid);
             if returncode p =? 0 then mret (Some false) else mret alive
           else mret alive);
  alive ← read_local "alive" alive;
  finish (KillResult alive) sys_stdout.

(** ** [spawn] *)

Definition newline : string := String (ascii_of_nat 10) EmptyString.

(** The job script: the text of the [Template] with [$hours], [${mem}],
    [$id] and [$port] replaced, as [substitute] does. *)
Definition serialpbs_template (mem hours id port : string) : string :=
  newline
  +:+ "#PBS -S /bin/bash" +:+ newline
  +:+ "##PBS -l nodes=1:ppn=1,walltime=" +:+ hours +:+ ":00:00,pvmem=" +:+ mem +:+ "gb" +:+ newline
  +:+ "#PBS -l walltime=" +:+ hours +:+ ":00:00" +:+ newline
  +:+ "#PBS -N jupyter" +:+ newline
  +:+ "#PBS -r n" +:+ newline
  +:+ "#PBS -o /tmp/notebook_" +:+ id +:+ ".log" +:+ newline
  +:+ "#PBS -j oe" +:+ newline
  +:+ "#PBS -V" +:+ newline
  +:+ newline
  +:+ "module purge" +:+ newline
  +:+ "module load python/3.4-anaconda3" +:+ newline
  +:+ "source activate /prodigfs/jupyter/anaconda3/" +:+ newline
  +:+ newline
  +:+ "# setup tunnel for notebook" +:+ newline
  +:+ "ssh -N -f -R " +:+ port +:+ ":localhost:" +:+ port +:+ " jupyter-test.ipsl.upmc.fr" +:+ newline
  +:+ "# setup tunnel for API" +:+ newline
  +:+ "ssh -N -f -L 8081:localhost:8081 jupyter-test.ipsl.upmc.fr" +:+ newline
  +:+ newline
  +:+ "    ".

(** The loop over [args] that assigns [port]; a later match overwrites an
    earlier one. *)
Fixpoint scan_port (args : list string) (port : option string) : M (option string) :=
  match args with
  | [] => mret port
  | line :: rest =>
      if py_in "--port=" line then
        match py_split "=" line !! 1%nat with
        | Some value => scan_port rest (Some value)
        | None => raise IndexError
        end
      else scan_port rest port
  end.

(** The loop [for k in keys: cmd.insert(0, "export %s='%s';" % (k, env[k]))]. *)
Fixpoint export_loop (keys : list string) (env : gmap string string)
    (cmd : list string) : M (list string) :=
  match keys with
  | [] => mret cmd
  | k :: rest =>
      match env !! k with
      | Some v => export_loop rest env (("export " +:+ k +:+ "='" +:+ v +:+ "';") :: cmd)
      | None => raise (KeyError k)
      end
  end.

(** [Popen('qsub', env=env, cwd=os.path.expanduser('~'), ...)] with the job
    script on its standard input. *)
Definition qsub (W : world) (env : gmap string string) (serialpbs : string) : invocation :=
  {| inv_argv := ["qsub"]; inv_cwd := Some (home W);
     inv_env := Some env; inv_input := Some serialpbs |}.

(** The launch command: the list built from [sys.executable] and [args],
    with the export statements put in front of it. *)
Definition launch_command (W : world) (args : list string)
    (env : gmap string string) : M (list string) :=
  let cmd := [sys_executable W; "-m"; "jupyterhub.singleuser"] ++ args in
  export_loop ["JPY_API_TOKEN"] env cmd.

(** The child after [os.fork()]: it leaves the process group, points its
    standard streams at the null device, runs [qsub] on the job script and
    writes the job number to the pipe. *)
Definition spawn_child (W : world) (serialpbs : string)
    (env : gmap string string) : M unit :=
  (λ st, (Ok (), redirected st)) ;;
  p ← Popen W (qsub W env serialpbs);
  let out := strip bytes_isspace (captured p) in
  out ← (if is_ascii out then mret out
         else raise (UnicodeDecodeError "'ascii' codec can't decode byte"));
  jobid ← match py_split "." out with
          | first :: _ => mret first
          | [] => raise IndexError
          end;
  pid ← match py_int jobid with
        | Some n => mret n
        | None => raise (ValueError "invalid literal for int() with base 10")
        end;
  finish (SpawnResult pid) pipe_w.

(** [r, w = os.pipe()] *)
Definition fresh_pipe (st : state) : state :=
  {| stdout := stdout st; pipe := ""; log := log st;
     calls := calls st; detached := detached st |}.

(** The parent's state once the child has closed the pipe: the programs
    the child started have run. *)
Definition after_child (st_child st : state) : state :=
  {| stdout := stdout st; pipe := pipe st; log := log st;
     calls := calls st_child; detached := detached st |}.

(** [os.pipe()], [os.fork()] and the parent's side: the child runs from a
    copy of the state; the parent reads the pipe to its end and writes what
    it read to its own standard output.  Whatever the child's outcome, the
    parent goes on. *)
Definition fork_and_relay (child : M unit) : M unit :=
  λ st,
    let st := fresh_pipe st in
    let st_child := snd (child st) in
    write sys_stdout (pipe st_child) (after_child st_child st).

Definition spawn (W : world) (args : list string) (env : gmap string string) : M unit :=
  port ← scan_port args None;
  let mem := 1 in
  let hours := 6 in
  let id := getuser W in
  port ← read_local "port" port;
  let serialpbs := serialpbs_template (pretty mem) (pretty hours) id port in
  let serialpbs := serialpbs +:+ newline in
  let serialpbs := serialpbs +:+ newline in
  cmd ← launch_command W args env;
  let cmd_s := String.concat " " cmd in
  let serialpbs := serialpbs +:+ cmd_s in
  app_log INFO "Spawning %s" [ArgStr cmd_s] ;;
  env ← (if bool_decide (is_Some (env !! "PYTHONPATH")) then
           app_log WARNING "PYTHONPATH env not allowed for security reasons" [] ;;
           mret (delete "PYTHONPATH" env)
         else mret env);
  fork_and_relay (spawn_child W serialpbs env).

(** ** [main] *)

(** [json.load(sys.stdin)] *)
Definition py_json_load (W : world) (stdin : string) : M json :=
  match json_load W stdin with
  | inl value => mret value
  | inr msg => raise (ValueError msg)
  end.

(** [kwargs.pop('action')] on whatever was decoded. *)
Definition pop_action (kwargs : json) : M (json * gmap string json) :=
  match kwargs with
  | JObj d =>
      match d !! "action" with
      | Some action => mret (action, delete "action" d)
      | None => raise (KeyError "action")
      end
  | JArr _ => raise (TypeError "'str' object cannot be interpreted as an integer")
  | _ => raise (AttributeError "object has no attribute 'pop'")
  end.

Definition as_str (v : json) : option string :=
  match v with
  | JStr s => Some s
  | _ => None
  end.

(** A decoded dictionary as a mapping from strings to strings, when all
    its values are strings. *)
Definition as_str_map (d : gmap string json) : option (gmap string string) :=
  if bool_decide (map_Forall (λ _ v, is_Some (as_str v)) d)
  then Some (omap as_str d) else None.

(** [kill] called with the decoded dictionary as keywords: they must be
    exactly its parameters. *)
Definition call_kill (W : world) (kwargs : gmap string json) : M unit :=
  if bool_decide (dom kwargs = ({["pid"; "signal"]} : gset string)) then
    match kwargs !! "pid", kwargs !! "signal" with
    | Some (JInt pid), Some (JInt signal) => kill W pid signal
    | _, _ => untyped
    end
  else raise (TypeError "kill() got unexpected or missing keyword arguments").

(** [spawn] called with the decoded dictionary as keywords. *)
Definition call_spawn (W : world) (kwargs : gmap string json) : M unit :=
  if bool_decide (dom kwargs = ({["args"; "env"]} : gset string)) then
    match kwargs !! "args", kwargs !! "env" with
    | Some (JArr items), Some (JObj d) =>
        match mapM as_str items, as_str_map d with
        | Some args, Some env => spawn W args env
        | _, _ => untyped
        end
    | _, _ => untyped
    end
  else raise (TypeError "spawn() got unexpected or missing keyword arguments").

(** [action == name] where [name] is a [str]. *)
Definition py_eq_str (action : json) (name : string) : bool :=
  match action with
  | JStr s => String.eqb s name
  | _ => false
  end.

(** [stdin] is the text on standard input. *)
Definition main (W : world) (stdin : string) : M unit :=
  app_log DEBUG "Starting mediator for %s" [ArgStr (getuser W)] ;;
  kwargs ← try_except_ValueError (py_json_load W stdin)
              (λ e, app_log ERROR ("Expected JSON on stdin, got " +:+ e) [] ;;
                    raise (SystemExit 1));
  '(action, kwargs) ← pop_action kwargs;
  if py_eq_str action "kill" then call_kill W kwargs
  else if py_eq_str action "spawn" then call_spawn W kwargs
  else raise (TypeError "action must be 'spawn' or 'kill'").

(** ** The process *)

(** The exit status the interpreter gives for an outcome of [main]:
    0 after a normal return, the code of [sys.exit], 1 after any other
    exception. *)
Definition exit_status (o : outcome unit) : option Z :=
  match o with
  | Ok _ => Some 0
  | Raise (SystemExit code) => Some code
  | Raise _ => Some 1
  | Untyped => None
  end.

(** One run of the script: [main()] from the initial state. *)
Definition run_mediator (W : world) (stdin : string) : outcome unit * state :=
  main W stdin initial.

(** ** A JSON decoder

    [json_loads] stands where the library's decoder stands when a run is
    evaluated on a concrete text.  It reads JSON written in ASCII: the six
    kinds of value, the two-character escapes and [\u] escapes below 128,
    [NaN] and the infinities as the library accepts them, and, as the
    library does, the last of several equal keys.  Its messages are its
    own.  The theorems on [main] hold for every decoder. *)

Definition json_ws (c : ascii) : bool :=
  let n := nat_of_ascii c in
  (n =? 32)%nat || (n =? 9)%nat || (n =? 10)%nat || (n =? 13)%nat.

Fixpoint strip_prefix (p s : string) : option string :=
  match p, s with
  | EmptyString, _ => Some s
  | String a p', String b s' => if (a =? b)%char then strip_prefix p' s' else None
  | String _ _, EmptyString => None
  end.

Definition is_digit (c : ascii) : bool := bool_decide (is_Some (digit_value c)).

(** The longest run of digits at the head of [s], and what follows it. *)
Fixpoint take_digits (s : string) : string * string :=
  match s with
  | String c rest =>
      if is_digit c then
        let '(ds, rest') := take_digits rest in (String c ds, rest')
      else (EmptyString, s)
  | EmptyString => (EmptyString, EmptyString)
  end.

Fixpoint digits_value (acc : Z) (ds : string) : Z :=
  match ds with
  | String c rest => digits_value (acc * 10 + default 0 (digit_value c)) rest
  | EmptyString => acc
  end.

(** A number: an optional minus sign, then a zero or a run of digits that
    starts with a non-zero digit, then a fraction and an exponent when they
    are complete.  With either it is a [float], otherwise an [int]. *)
Definition parse_number (s : string) : option (json * string) :=
  let '(sign, s1) :=
    match s with
    | String "-" rest => ("-", rest)
    | _ => ("", s)
    end in
  '(whole, s2) ← match s1 with
                 | String "0" rest => Some ("0", rest)
                 | String c _ => if is_digit c then Some (take_digits s1) else None
                 | EmptyString => None
                 end;
  let '(frac, s3) :=
    match s2 with
    | String "." rest =>
        let '(ds, rest') := take_digits rest in
        if String.eqb ds "" then ("", s2) else ("." +:+ ds, rest')
    | _ => ("", s2)
    end in
  let '(expo, s4) :=
    match s3 with
    | String e rest =>
        if (e =? "e")%char || (e =? "E")%char then
          let '(esign, rest1) :=
            match rest with
            | String "+" r => ("+", r)
            | String "-" r => ("-", r)
            | _ => ("", rest)
            end in
          let '(ds, rest2) := take_digits rest1 in
          if String.eqb ds "" then ("", s3)
          else (String e esign +:+ ds, rest2)
        else ("", s3)
    | EmptyString => ("", s3)
    end in
  if String.eqb frac "" && String.eqb expo "" then
    let n := digits_value 0 whole in
    Some (JInt (if String.eqb sign "-" then - n else n), s4)
  else Some (JFloat (sign +:+ whole +:+ frac +:+ expo), s4).

Definition hex_value (c : ascii) : option Z :=
  let n := Z.of_nat (nat_of_ascii c) in
  if (48 <=? n) && (n <=? 57) then Some (n - 48)
  else if (65 <=? n) && (n <=? 70) then Some (n - 55)
  else if (97 <=? n) && (n <=? 102) then Some (n - 87)
  else None.

Definition escape_char (e : ascii) : option ascii :=
  if (e =? ascii_of_nat 34)%char then Some (ascii_of_nat 34)
  else if (e =? "\")%char then Some "\"%char
  else if (e =? "/")%char then Some "/"%char
  else if (e =? "b")%char then Some (ascii_of_nat 8)
  else if (e =? "f")%char then Some (ascii_of_nat 12)
  else if (e =? "n")%char then Some (ascii_of_nat 10)
  else if (e =? "r")%char then Some (ascii_of_nat 13)
  else if (e =? "t")%char then Some (ascii_of_nat 9)
  else None.

(** The body of a string after its opening quote, up to the closing one. *)
Fixpoint parse_string (s : string) : option (string * string) :=
  match s with
  | EmptyString => None
  | String c rest =>
      if (c =? ascii_of_nat 34)%char then Some (EmptyString, rest)
      else if (c =? "\")%char then
        match rest with
        | String "u" (String h1 (String h2 (String h3 (String h4 rest')))) =>
            a ← hex_value h1; b ← hex_value h2; c ← hex_value h3; d ← hex_value h4;
            let code := ((a * 16 + b) * 16 + c) * 16 + d in
            if code <? 128 then
              '(body, after) ← parse_string rest';
              Some (String (ascii_of_nat (Z.to_nat code)) body, after)
            else None
        | String e rest' =>
            ch ← escape_char e;
            '(body, after) ← parse_string rest';
            Some (String ch body, after)
        | EmptyString => None
        end
      else if (nat_of_ascii c <? 32)%nat || (127 <? nat_of_ascii c)%nat then None
      else
        '(body, after) ← parse_string rest;
        Some (String c body, after)
  end.

Fixpoint parse_value (fuel : nat) (s : string) : option (json * string) :=
  match fuel with
  | O => None
  | S fuel =>
      match lstrip json_ws s with
      | EmptyString => None
      | String c rest as s' =>
          if (c =? ascii_of_nat 34)%char then
            '(body, after) ← parse_string rest; Some (JStr body, after)
          else if (c =? "[")%char then
            match lstrip json_ws rest with
            | String "]" after => Some (JArr [], after)
            | _ => '(items, after) ← parse_elements fuel rest; Some (JArr items, after)
            end
          else if (c =? "{")%char then
            match lstrip json_ws rest with
            | String "}" after => Some (JObj ∅, after)
            | _ => '(d, after) ← parse_members fuel ∅ rest; Some (JObj d, after)
            end
          else
            match strip_prefix "null" s', strip_prefix "true" s', strip_prefix "false" s' with
            | Some after, _, _ => Some (JNull, after)
            | _, Some after, _ => Some (JBool true, after)
            | _, _, Some after => Some (JBool false, after)
            | _, _, _ =>
                match strip_prefix "NaN" s', strip_prefix "Infinity" s',
                      strip_prefix "-Infinity" s' with
                | Some after, _, _ => Some (JFloat "NaN", after)
                | _, Some after, _ => Some (JFloat "Infinity", after)
                | _, _, Some after => Some (JFloat "-Infinity", after)
                | _, _, _ => parse_number s'
                end
            end
      end
  end
with parse_elements (fuel : nat) (s : string) : option (list json * string) :=
  match fuel with
  | O => None
  | S fuel =>
      '(v, after) ← parse_value fuel s;
      match lstrip json_ws after with
      | String "," more => '(vs, after') ← parse_elements fuel more; Some (v :: vs, after')
      | String "]" after' => Some ([v], after')
      | _ => None
      end
  end
with parse_members (fuel : nat) (acc : gmap string json) (s : string)
    : option (gmap string json * string) :=
  match fuel with
  | O => None
  | S fuel =>
      match lstrip json_ws s with
      | String q rest =>
          if (q =? ascii_of_nat 34)%char then
            '(key, after) ← parse_string rest;
            match lstrip json_ws after with
            | String ":" more =>
                '(v, after') ← parse_value fuel more;
                let acc := <[key := v]> acc in
                match lstrip json_ws after' with
                | String "," more' => parse_members fuel acc more'
                | String "}" after'' => Some (acc, after'')
                | _ => None
                end
            | _ => None
            end
          else None
      | EmptyString => None
      end
  end.

(** [json.loads]: one value, with nothing but white space after it. *)
Definition json_loads (text : string) : json + string :=
  match parse_value (2 * String.length text + 2) text with
  | Some (value, after) =>
      match lstrip json_ws after with
      | EmptyString => inl value
      | _ => inr "Extra data"
      end
  | None => inr "Expecting value"
  end.

(** ** Requests as the decoder delivers them *)

Definition kill_request (pid signal : Z) : json :=
  JObj {[ "action" := JStr "kill"; "pid" := JInt pid; "signal" := JInt signal ]}.

Definition spawn_request (args : list string) (env : gmap string string) : json :=
  JObj {[ "action" := JStr "spawn"; "args" := JArr (JStr <$> args);
          "env" := JObj (JStr <$> env) ]}.

(** [args] has a line that the loop of [spawn] takes for the port. *)
Definition has_port (args : list string) : bool :=
  existsb (py_in "--port=") args.

(** ** Names for what the statements below speak of *)

(** [c] occurs in [s]. *)
Fixpoint occurs (c : ascii) (s : string) : bool :=
  match s with
  | String a rest => (a =? c)%char || occurs c rest
  | EmptyString => false
  end.

(** The statement [spawn] puts in front of the command for a key. *)
Definition export_statement (k v : string) : string :=
  "export " +:+ k +:+ "='" +:+ v +:+ "';".

(** The job script [spawn] hands to [qsub]: the filled template, two line
    feeds and the joined launch command. *)
Definition job_script (W : world) (port cmd_s : string) : string :=
  ((serialpbs_template (pretty 1) (pretty 6) (getuser W) port +:+ newline)
     +:+ newline) +:+ cmd_s.

(** The environment [spawn] hands to [qsub]. *)
Definition sanitized (env : gmap string string) : gmap string string :=
  delete "PYTHONPATH" env.

(** The job number the child reads in the answer of [qsub], when it gets
    that far. *)
Definition submitted_job (W : world) (env : gmap string string)
    (script : string) : option Z :=
  c ← run W (qsub W env script);
  let out := strip bytes_isspace (captured c) in
  if is_ascii out then head (py_split "." out) ≫= py_int else None.

(** What the child writes to the pipe. *)
Definition child_text (W : world) (env : gmap string string) (script : string) : string :=
  match submitted_job W env script with
  | Some pid => json_dump (SpawnResult pid)
  | None => ""
  end.

Definition pythonpath_warning : log_record :=
  LogRecord WARNING "PYTHONPATH env not allowed for security reasons" [].

(** What [spawn] logs before it forks. *)
Definition spawn_records (cmd_s : string) (env : gmap string string) : list log_record :=
  LogRecord INFO "Spawning %s" [ArgStr cmd_s]
  :: (if bool_decide (is_Some (env !! "PYTHONPATH")) then [pythonpath_warning] else []).

(** What [main] logs first. *)
Definition start_record (W : world) : log_record :=
  LogRecord DEBUG "Starting mediator for %s" [ArgStr (getuser W)].

(** The shape the specification gives the launch command: interpreter,
    launcher module, then the arguments. *)
Definition specified_command (W : world) (args : list string) : list string :=
  sys_executable W :: "jupyterhub.singleuser" :: args.

(** ** A laboratory world

    A scheduler with three jobs, one running, one queued and one
    completed, to evaluate the script on.  [qstat -x] prints a record for a
    job it knows and fails for one it does not; [qdel] refuses unknown and
    completed jobs; [qsub] answers with the number of the new job. *)

Fixpoint text_after (marker s : string) : option string :=
  match strip_prefix marker s with
  | Some rest => Some rest
  | None =>
      match s with
      | String _ s' => text_after marker s'
      | EmptyString => None
      end
  end.

Fixpoint text_before (stop : ascii) (s : string) : string :=
  match s with
  | String c rest => if (c =? stop)%char then EmptyString else String c (text_before stop rest)
  | EmptyString => EmptyString
  end.

(** The string of the first [job_state] element of a status record. *)
Definition read_job_state (output : string) : option (option string) :=
  body ← text_after "<job_state>" output;
  let text := text_before "<" body in
  Some (if String.eqb text "" then None else Some text).

Definition lab_jobs : gmap Z string :=
  {[ 1234 := "R"; 1235 := "Q"; 1236 := "C" ]}.

Definition lab_run (i : invocation) : option completed :=
  match inv_argv i with
  | ["qstat"; "-x"; job] =>
      match py_int job ≫= (lab_jobs !!.) with
      | Some state =>
          Some (Completed 0 ("<Data><Job><Job_Id>" +:+ job +:+ ".lab</Job_Id><job_state>"
                             +:+ state +:+ "</job_state></Job></Data>"))
      | None => Some (Completed 153 "")
      end
  | ["qdel"; job] =>
      match py_int job ≫= (lab_jobs !!.) with
      | Some state => Some (Completed (if String.eqb state "C" then 35 else 0) "")
      | None => Some (Completed 153 "")
      end
  | ["qsub"] => Some (Completed 0 ("5678.lab" +:+ newline))
  | _ => None
  end.

Definition lab : world :=
  {| sys_executable := "/usr/bin/python3";
     getuser := "alice";
     home := "/home/alice";
     json_load := json_loads;
     run := lab_run;
     find_job_state := read_job_state |}.

(** The environment of the scenario in the specification. *)
Definition lab_env : gmap string string :=
  {[ "JPY_API_TOKEN" := "abc"; "PYTHONPATH" := "/evil" ]}.

Definition quoted (s : string) : string := dquote +:+ s +:+ dquote.

(** [{"action":"kill","pid":1234,"signal":0}] *)
Definition lab_kill_text : string :=
  "{" +:+ quoted "action" +:+ ":" +:+ quoted "kill" +:+ ","
      +:+ quoted "pid" +:+ ":1234," +:+ quoted "signal" +:+ ":0}".

(** [{"action":"spawn","args":["--port=8888"],"env":{"JPY_API_TOKEN":"abc","PYTHONPATH":"/evil"}}] *)
Definition lab_spawn_text : string :=
  "{" +:+ quoted "action" +:+ ":" +:+ quoted "spawn" +:+ ","
      +:+ quoted "args" +:+ ":[" +:+ quoted "--port=8888" +:+ "],"
      +:+ quoted "env" +:+ ":{" +:+ quoted "JPY_API_TOKEN" +:+ ":" +:+ quoted "abc" +:+ ","
      +:+ quoted "PYTHONPATH" +:+ ":" +:+ quoted "/evil" +:+ "}}".

(** [{"action":"spawn","args":["--ip=0.0.0.0"],"env":{"JPY_API_TOKEN":"abc"}}] *)
Definition lab_portless_text : string :=
  "{" +:+ quoted "action" +:+ ":" +:+ quoted "spawn" +:+ ","
      +:+ quoted "args" +:+ ":[" +:+ quoted "--ip=0.0.0.0" +:+ "],"
      +:+ quoted "env" +:+ ":{" +:+ quoted "JPY_API_TOKEN" +:+ ":" +:+ quoted "abc" +:+ "}}".

(** [{"action":"restart","pid":1234}] *)
Definition lab_restart_text : string :=
  "{" +:+ quoted "action" +:+ ":" +:+ quoted "restart" +:+ ","
      +:+ quoted "pid" +:+ ":1234}".

(** ** Further names for the properties of the last part *)

(** Every character of [s] passes the test [p]. *)
Fixpoint all_chars (p : ascii → bool) (s : string) : bool :=
  match s with
  | String c rest => p c && all_chars p rest
  | EmptyString => true
  end.

(** A character of a printed integer: a digit or the minus sign. *)
Definition numeric (c : ascii) : bool := is_digit c || (c =? "-")%char.

(** A scheduler whose commands all succeed and print nothing. *)
Definition lab_silent : world :=
  {| sys_executable := "/usr/bin/python3";
     getuser := "alice";
     home := "/home/alice";
     json_load := json_loads;
     run := λ _, Some (Completed 0 "");
     find_job_state := read_job_state |}.

(** A scheduler whose [qsub] answers with a unit separator (character 31)
    before the job number, which neither [strip] nor [int] takes for white
    space. *)
Definition lab_garbled : world :=
  {| sys_executable := "/usr/bin/python3";
     getuser := "alice";
     home := "/home/alice";
     json_load := json_loads;
     run := λ _, Some (Completed 0 (String (ascii_of_nat 31) "7.lab" +:+ newline));
     find_job_state := read_job_state |}.

(** [[1, 2]] *)
Definition lab_list_text : string := "[1, 2]".

(** [{"pid":1234,"signal":0}] *)
Definition lab_actionless_text : string :=
  "{" +:+ quoted "pid" +:+ ":1234," +:+ quoted "signal" +:+ ":0}".

(** [{"action":"kill","pid":1234,"signal":0,"force":true}] *)
Definition lab_forced_text : string :=
  "{" +:+ quoted "action" +:+ ":" +:+ quoted "kill" +:+ ","
      +:+ quoted "pid" +:+ ":1234," +:+ quoted "signal" +:+ ":0,"
      +:+ quoted "force" +:+ ":true}".

(** [{"action":"spawn","args":["--port=8888"]}] *)
Definition lab_envless_text : string :=
  "{" +:+ quoted "action" +:+ ":" +:+ quoted "spawn" +:+ ","
      +:+ quoted "args" +:+ ":[" +:+ quoted "--port=8888" +:+ "]}".

(** * Properties *)

(** ** Steps of the monad *)

Lemma bind_ok {A B} (c : M A) (f : A → M B) (st st' : state) (a : A) :
  c st = (Ok a, st') → (c ≫= f) st = f a st'.
Proof. intros H. unfold mbind, M_bind. by rewrite H. Qed.

Lemma bind_raise {A B} (c : M A) (f : A → M B) (st st' : state) (e : exn) :
  c st = (Raise e, st') → (c ≫= f) st = (Raise e, st').
Proof. intros H. unfold mbind, M_bind. by rewrite H. Qed.

(** One step of a computation whose first part reduces by evaluation. *)
Ltac step := erewrite bind_ok by reflexivity.

Lemma try_except_caught {A} (body : M A) (handler : string → M A)
    (st st' : state) (msg : string) :
  body st = (Raise (ValueError msg), st') →
  try_except_ValueError body handler st = handler msg st'.
Proof. intros H. unfold try_except_ValueError. by rewrite H. Qed.

Lemma try_except_passed {A} (body : M A) (handler : string → M A)
    (st st' : state) (a : A) :
  body st = (Ok a, st') →
  try_except_ValueError body handler st = (Ok a, st').
Proof. intros H. unfold try_except_ValueError. by rewrite H. Qed.

Lemma logged_logged (r1 r2 : list log_record) (st : state) :
  logged r2 (logged r1 st) = logged (r1 ++ r2) st.
Proof. unfold logged. simpl. by rewrite app_assoc. Qed.

Lemma Popen_completed (W : world) (i : invocation) (c : completed) (st : state) :
  run W i = Some c → Popen W i st = (Ok c, called i st).
Proof. intros H. unfold Popen. by rewrite H. Qed.

Lemma check_output_ok (W : world) (i : invocation) (c : completed) (st : state) :
  inv_cwd i = None → inv_env i = None → inv_input i = None →
  run W i = Some c → returncode c = 0 →
  check_output W (inv_argv i) st = (Ok (captured c), called i st).
Proof.
  destruct i as [argv cwd env input]. simpl. intros -> -> -> Hrun Hrc.
  unfold check_output. erewrite bind_ok by by apply Popen_completed.
  by rewrite Hrc.
Qed.

Lemma finish_eq (data : result) (fp : stream) (st : state) :
  finish data fp st =
    (Ok (), logged [LogRecord DEBUG "mediator result: %s" [ArgData data]]
              (written fp (json_dump data) st)).
Proof. reflexivity. Qed.

(** ** [kill] *)

Section kill_properties.

Context (W : world) (pid : Z) (st : state).

Lemma termination_is_no_probe (signal : Z) :
  signal ∈ [2; 9; 15] → (signal =? 0) = false.
Proof.
  rewrite !elem_of_cons, elem_of_nil. intros Hin. apply Z.eqb_neq. lia.
Qed.

Lemma kill_probe (c : completed) (job_state : option string) :
  run W (qstat pid) = Some c →
  returncode c = 0 →
  find_job_state W (captured c) = Some job_state →
  kill W pid 0 st =
    finish (KillResult (bool_decide (job_state = Some "R"))) sys_stdout
      (called (qstat pid)
         (logged [LogRecord DEBUG "Sending signal %i to %i" [ArgInt 0; ArgInt pid]] st)).
Proof.
  intros Hrun Hrc Hfind. unfold kill.
  step.
  rewrite Z.eqb_refl.
  erewrite bind_ok; [|erewrite bind_ok by by apply check_output_ok].
  2: { rewrite Hfind. reflexivity. }
  rewrite bool_decide_eq_false_2 by (rewrite !elem_of_cons, elem_of_nil; lia).
  step. step. reflexivity.
Qed.

Lemma kill_terminate (signal : Z) (c : completed) :
  signal ∈ [2; 9; 15] →
  run W (qdel W pid) = Some c →
  kill W pid signal st =
    (alive ← read_local "alive" (if returncode c =? 0 then Some false else None);
     finish (KillResult alive) sys_stdout)
      (called (qdel W pid)
         (logged [LogRecord DEBUG "Sending signal %i to %i" [ArgInt signal; ArgInt pid]] st)).
Proof.
  intros Hsig Hrun. unfold kill.
  step.
  rewrite (termination_is_no_probe signal Hsig).
  step.
  rewrite bool_decide_eq_true_2 by done.
  erewrite bind_ok; [reflexivity|].
  erewrite bind_ok by by apply Popen_completed.
  by destruct (returncode c =? 0).
Qed.

(** C2. A liveness probe ([signal] 0) whose status query succeeds and
    records a job state writes a result whose [alive] field is true
    exactly when that state is ['R']; any other state gives false. *)
Theorem kill_probe_alive_iff_running (c : completed) (job_state : option string) :
  detached st = false →
  run W (qstat pid) = Some c →
  returncode c = 0 →
  find_job_state W (captured c) = Some job_state →
  ∃ alive : bool,
    fst (kill W pid 0 st) = Ok () ∧
    stdout (snd (kill W pid 0 st)) = stdout st +:+ json_dump (KillResult alive) ∧
    (alive = true ↔ job_state = Some "R").
Proof.
  intros Hdet Hrun Hrc Hfind.
  exists (bool_decide (job_state = Some "R")).
  rewrite (kill_probe c job_state Hrun Hrc Hfind), finish_eq.
  cbn. rewrite Hdet.
  split; [done|]. split; [done|]. apply bool_decide_eq_true.
Qed.

(** C3. A termination request ([signal] 2, 9 or 15) whose [qdel] exits
    with code 0 writes the result with [alive] false. *)
Theorem kill_terminate_confirmed (signal : Z) (c : completed) :
  detached st = false →
  signal ∈ [2; 9; 15] →
  run W (qdel W pid) = Some c →
  returncode c = 0 →
  fst (kill W pid signal st) = Ok () ∧
  stdout (snd (kill W pid signal st)) = stdout st +:+ json_dump (KillResult false).
Proof.
  intros Hdet Hsig Hrun Hrc.
  rewrite (kill_terminate signal c Hsig Hrun), Hrc.
  step. rewrite finish_eq.
  cbn. by rewrite Hdet.
Qed.

(** C9. A termination request whose [qdel] exits with a non-zero code
    never assigns [alive] (no probe runs in the same call: the two tests
    on [signal] exclude each other), so reading it raises
    [UnboundLocalError] and nothing is written. *)
Theorem kill_terminate_unconfirmed_unbound (signal : Z) (c : completed) :
  signal ∈ [2; 9; 15] →
  run W (qdel W pid) = Some c →
  returncode c ≠ 0 →
  fst (kill W pid signal st) = Raise (UnboundLocalError "alive") ∧
  stdout (snd (kill W pid signal st)) = stdout st ∧
  pipe (snd (kill W pid signal st)) = pipe st.
Proof.
  intros Hsig Hrun Hrc.
  rewrite (kill_terminate signal c Hsig Hrun).
  apply Z.eqb_neq in Hrc. rewrite Hrc.
  by erewrite bind_raise by reflexivity.
Qed.
End kill_properties.

Lemma kill_probe_alive_iff_running_witness :
  ∃ alive : bool,
    fst (kill lab 1234 0 initial) = Ok () ∧
    stdout (snd (kill lab 1234 0 initial)) = stdout initial +:+ json_dump (KillResult alive) ∧
    (alive = true ↔ Some "R" = Some "R").
Proof.
  eapply (kill_probe_alive_iff_running lab 1234 initial _ (Some "R")); reflexivity.
Defined.

Lemma kill_terminate_confirmed_witness :
  fst (kill lab 1235 15 initial) = Ok () ∧
  stdout (snd (kill lab 1235 15 initial)) = stdout initial +:+ json_dump (KillResult false).
Proof.
  eapply (kill_terminate_confirmed lab 1235 initial 15);
    [reflexivity | repeat constructor | reflexivity | reflexivity].
Defined.

Lemma kill_terminate_unconfirmed_unbound_witness :
  fst (kill lab 4321 9 initial) = Raise (UnboundLocalError "alive") ∧
  stdout (snd (kill lab 4321 9 initial)) = stdout initial ∧
  pipe (snd (kill lab 4321 9 initial)) = pipe initial.
Proof.
  eapply (kill_terminate_unconfirmed_unbound lab 4321 initial 9);
    [repeat constructor | reflexivity | discriminate].
Defined.

(** ** Text *)

Lemma prefix_occurs (c : ascii) (p s : string) :
  String.prefix p s = true → occurs c p = true → occurs c s = true.
Proof.
  revert s. induction p as [|a p IH]; intros s Hp Hc; [discriminate|].
  destruct s as [|b s]; [discriminate|]. simpl in *.
  destruct (Ascii.ascii_dec a b) as [->|Hne]; [|discriminate].
  destruct (Ascii.eqb_spec b c) as [->|?]; [done|].
  simpl in *. eauto.
Qed.

Lemma py_in_occurs (c : ascii) (needle hay : string) :
  py_in needle hay = true → occurs c needle = true → occurs c hay = true.
Proof.
  intros Hin Hc. induction hay as [|a hay IH].
  - change (String.prefix needle "" || false = true) in Hin.
    rewrite orb_false_r in Hin. eauto using prefix_occurs.
  - change (String.prefix needle (String a hay) || py_in needle hay = true) in Hin.
    apply orb_true_iff in Hin as [Hp|Hin].
    + eauto using prefix_occurs.
    + simpl. rewrite (IH Hin). apply orb_true_r.
Qed.

Lemma py_split_nonempty (sep : ascii) (s : string) :
  ∃ piece pieces, py_split sep s = piece :: pieces.
Proof.
  induction s as [|a s (piece & pieces & IH)]; simpl; [eauto|].
  destruct (a =? sep)%char; [eauto|]. rewrite IH. eauto.
Qed.

Lemma py_split_second (sep : ascii) (s : string) :
  occurs sep s = true → is_Some (py_split sep s !! 1%nat).
Proof.
  induction s as [|a s IH]; [discriminate|]. simpl.
  destruct (Ascii.eqb_spec a sep) as [->|Hne]; simpl.
  - intros _. destruct (py_split_nonempty sep s) as (piece & pieces & ->). eauto.
  - intros Hs. destruct (IH Hs) as [v Hv].
    destruct (py_split sep s) as [|piece pieces]; [discriminate|]. eauto.
Qed.

(** ** The port *)

Lemma port_line_splits (line : string) :
  py_in "--port=" line = true → is_Some (py_split "=" line !! 1%nat).
Proof. intros H. apply py_split_second. by apply (py_in_occurs _ "--port="). Qed.

Lemma scan_port_absent (args : list string) (port : option string) (st : state) :
  has_port args = false → scan_port args port st = (Ok port, st).
Proof.
  unfold has_port. induction args as [|line args IH]; simpl; [done|].
  intros [Hline Hargs]%orb_false_iff. rewrite Hline. auto.
Qed.

Lemma scan_port_present (args : list string) (port : option string) (st : state) :
  has_port args = true → ∃ value, scan_port args port st = (Ok (Some value), st).
Proof.
  unfold has_port. revert port. induction args as [|line args IH]; intros port; simpl; [done|].
  destruct (py_in "--port=" line) eqn:Hline; simpl.
  - intros _. destruct (port_line_splits line Hline) as [value ->].
    destruct (existsb (py_in "--port=") args) eqn:Hargs; [by apply IH|].
    exists value. by apply scan_port_absent.
  - apply IH.
Qed.

(** ** The launch command *)

Lemma launch_command_eq (W : world) (args : list string) (env : gmap string string)
    (st : state) (token : string) :
  env !! "JPY_API_TOKEN" = Some token →
  launch_command W args env st =
    (Ok (export_statement "JPY_API_TOKEN" token
           :: sys_executable W :: "-m" :: "jupyterhub.singleuser" :: args), st).
Proof. intros H. unfold launch_command. simpl. by rewrite H. Qed.

Lemma launch_command_no_token (W : world) (args : list string) (env : gmap string string)
    (st : state) :
  env !! "JPY_API_TOKEN" = None →
  launch_command W args env st = (Raise (KeyError "JPY_API_TOKEN"), st).
Proof. intros H. unfold launch_command. simpl. by rewrite H. Qed.

(** ** [spawn] *)

Lemma spawn_without_port (W : world) (args : list string) (env : gmap string string)
    (st : state) :
  has_port args = false → spawn W args env st = (Raise (UnboundLocalError "port"), st).
Proof.
  intros H. unfold spawn.
  rewrite (bind_ok _ _ st st None) by by apply scan_port_absent.
  reflexivity.
Qed.

Lemma spawn_without_token (W : world) (args : list string) (env : gmap string string)
    (st : state) :
  has_port args = true → env !! "JPY_API_TOKEN" = None →
  spawn W args env st = (Raise (KeyError "JPY_API_TOKEN"), st).
Proof.
  intros Hport Htok. unfold spawn.
  destruct (scan_port_present args None st Hport) as [value Hscan].
  rewrite (bind_ok _ _ st st (Some value)) by done.
  cbn [read_local]. rewrite (bind_ok _ _ st st value) by done.
  rewrite (bind_raise _ _ st st (KeyError "JPY_API_TOKEN")) by by apply launch_command_no_token.
  reflexivity.
Qed.

(** With a port and a token [spawn] reaches the fork. *)
Lemma spawn_forks (W : world) (args : list string) (env : gmap string string)
    (st : state) (token : string) :
  has_port args = true → env !! "JPY_API_TOKEN" = Some token →
  ∃ port,
    scan_port args None st = (Ok (Some port), st) ∧
    let cmd_s := String.concat " " (export_statement "JPY_API_TOKEN" token
                   :: sys_executable W :: "-m" :: "jupyterhub.singleuser" :: args) in
    spawn W args env st =
      fork_and_relay (spawn_child W (job_script W port cmd_s) (sanitized env))
        (logged (spawn_records cmd_s env) st).
Proof.
  intros Hport Htok.
  destruct (scan_port_present args None st Hport) as [port Hscan].
  exists port. split; [done|]. intros cmd_s. unfold spawn.
  rewrite (bind_ok _ _ st st (Some port)) by done.
  cbn [read_local]. rewrite (bind_ok _ _ st st port) by done.
  rewrite (bind_ok _ _ st st _) by by apply launch_command_eq.
  fold cmd_s. unfold spawn_records, job_script.
  rewrite (bind_ok _ _ st _ ()) by reflexivity.
  destruct (env !! "PYTHONPATH") as [v|] eqn:Hpy.
  - rewrite !bool_decide_eq_true_2 by eauto.
    erewrite bind_ok; [|by step].
    by rewrite logged_logged.
  - rewrite !bool_decide_eq_false_2 by (intros [? ?]; congruence).
    unfold sanitized. rewrite delete_id by done. reflexivity.
Qed.

(** The child starts [qsub], and nothing else, whatever comes of it; what
    it writes to the pipe is the job number or nothing. *)
Lemma spawn_child_run (W : world) (script : string) (env : gmap string string)
    (st : state) :
  calls (snd (spawn_child W script env st)) = calls st ++ [qsub W env script] ∧
  pipe (snd (spawn_child W script env (fresh_pipe st))) = child_text W env script.
Proof.
  unfold child_text, submitted_job, spawn_child, Popen, finish, write, app_log, raise.
  unfold mbind, M_bind, mret, M_ret. cbn [calls pipe snd fst].
  destruct (run W (qsub W env script)) as [c|]; [|done]. cbn [option_bind].
  destruct (is_ascii _); [|done].
  destruct (py_split "." _) as [|first pieces]; [done|]. cbn [head option_bind].
  destruct (py_int first); done.
Qed.

Lemma fork_and_relay_eq (child : M unit) (st : state) :
  let st_child := snd (child (fresh_pipe st)) in
  fork_and_relay child st =
    (Ok (), written sys_stdout (pipe st_child) (after_child st_child (fresh_pipe st))).
Proof. reflexivity. Qed.

(** The whole of a [spawn] that has a port and a token: the records are
    logged, [qsub] is started with the sanitized environment, the parent
    writes what the child sent and returns. *)
Lemma spawn_eq (W : world) (args : list string) (env : gmap string string)
    (st : state) (token : string) :
  has_port args = true → env !! "JPY_API_TOKEN" = Some token →
  ∃ port,
    scan_port args None st = (Ok (Some port), st) ∧
    let cmd_s := String.concat " " (export_statement "JPY_API_TOKEN" token
                   :: sys_executable W :: "-m" :: "jupyterhub.singleuser" :: args) in
    let script := job_script W port cmd_s in
    spawn W args env st =
      (Ok (), written sys_stdout (child_text W (sanitized env) script)
                (called (qsub W (sanitized env) script)
                   (fresh_pipe (logged (spawn_records cmd_s env) st)))).
Proof.
  intros Hport Htok.
  destruct (spawn_forks W args env st token Hport Htok) as (port & Hscan & Hspawn).
  exists port. split; [done|]. cbv zeta in *. rewrite Hspawn, fork_and_relay_eq. cbv zeta.
  match goal with |- context [spawn_child ?W ?s ?e (fresh_pipe ?t)] =>
    destruct (spawn_child_run W s e (fresh_pipe t)) as [Hcalls Hpipe];
    change (fresh_pipe (fresh_pipe t)) with (fresh_pipe t) in Hpipe
  end.
  unfold after_child. rewrite Hcalls, Hpipe. reflexivity.
Qed.

(** ** [main] *)

Lemma py_eq_str_false (action : json) (name : string) :
  action ≠ JStr name → py_eq_str action name = false.
Proof.
  destruct action; simpl; try done.
  intros Hne. apply String.eqb_neq. congruence.
Qed.

Lemma main_decode_error (W : world) (stdin msg : string) (st : state) :
  json_load W stdin = inr msg →
  main W stdin st =
    (Raise (SystemExit 1),
     logged [start_record W; LogRecord ERROR ("Expected JSON on stdin, got " +:+ msg) []] st).
Proof.
  intros H. unfold main.
  rewrite (bind_ok _ _ st _ ()) by reflexivity.
  erewrite bind_raise; [reflexivity|].
  erewrite try_except_caught; [|unfold py_json_load; by rewrite H].
  step.
  by rewrite logged_logged.
Qed.

Lemma main_dispatch (W : world) (stdin : string) (d : gmap string json)
    (action : json) (st : state) :
  json_load W stdin = inl (JObj d) → d !! "action" = Some action →
  main W stdin st =
    (if py_eq_str action "kill" then call_kill W (delete "action" d)
     else if py_eq_str action "spawn" then call_spawn W (delete "action" d)
     else raise (TypeError "action must be 'spawn' or 'kill'"))
      (logged [start_record W] st).
Proof.
  intros H Hact. unfold main.
  rewrite (bind_ok _ _ st _ ()) by reflexivity.
  erewrite bind_ok;
    [|erewrite try_except_passed; [reflexivity|unfold py_json_load; by rewrite H]].
  rewrite (bind_ok _ _ _ (logged [start_record W] st) (action, delete "action" d));
    [reflexivity|]. unfold pop_action. by rewrite Hact.
Qed.

Lemma mapM_as_str (args : list string) : mapM as_str (JStr <$> args) = Some args.
Proof. apply mapM_Some. induction args; constructor; auto. Qed.

Lemma as_str_map_strings (env : gmap string string) :
  as_str_map (JStr <$> env) = Some env.
Proof.
  unfold as_str_map. rewrite bool_decide_eq_true_2.
  - f_equal. apply map_eq. intros k. rewrite lookup_omap, lookup_fmap.
    by destruct (env !! k).
  - intros k v. rewrite lookup_fmap. destruct (env !! k); simpl; [|done].
    intros [= <-]. simpl. eauto.
Qed.

(** A kill request reaches [kill] with its two integers. *)
Lemma main_kill (W : world) (stdin : string) (pid signal : Z) (st : state) :
  json_load W stdin = inl (kill_request pid signal) →
  main W stdin st = kill W pid signal (logged [start_record W] st).
Proof.
  intros H. rewrite (main_dispatch W stdin _ (JStr "kill") st H) by done.
  cbn [py_eq_str String.eqb Ascii.eqb Bool.eqb]. unfold call_kill.
  rewrite bool_decide_eq_true_2 by (by vm_compute).
  reflexivity.
Qed.

(** A spawn request reaches [spawn] with its arguments and environment. *)
Lemma main_spawn (W : world) (stdin : string) (args : list string)
    (env : gmap string string) (st : state) :
  json_load W stdin = inl (spawn_request args env) →
  main W stdin st = spawn W args env (logged [start_record W] st).
Proof.
  intros H. rewrite (main_dispatch W stdin _ (JStr "spawn") st H) by done.
  cbn [py_eq_str String.eqb Ascii.eqb Bool.eqb]. unfold call_spawn.
  rewrite bool_decide_eq_true_2 by (by vm_compute).
  replace (delete "action" _ !! "args") with (Some (JArr (JStr <$> args))) by done.
  replace (delete "action" _ !! "env") with (Some (JObj (JStr <$> env))) by done.
  by rewrite mapM_as_str, as_str_map_strings.
Qed.

(** ** The claims on [spawn], [main] and [finish] *)

(** C1, as the specification words it, fails on the scenario of the
    specification: the command starts with the export statement, and behind
    it the interpreter is followed by [-m], not by the module. *)
Lemma launch_command_prefix_counterexample :
  let args := ["--port=8888"] in
  let cmd := ["export JPY_API_TOKEN='abc';"; "/usr/bin/python3"; "-m";
              "jupyterhub.singleuser"; "--port=8888"] in
  has_port args = true ∧
  launch_command lab args lab_env initial = (Ok cmd, initial) ∧
  cmd ≠ specified_command lab args ∧
  tail cmd ≠ specified_command lab args ∧
  cmd !! 0%nat ≠ Some (sys_executable lab) ∧
  cmd !! 1%nat ≠ Some "jupyterhub.singleuser" ∧
  tail cmd !! 1%nat ≠ Some "jupyterhub.singleuser".
Proof. cbv zeta. repeat split; discriminate. Qed.

(** C1, amended.  For a request with a port entry and a token, the launch
    command is the export statement of the token, then the interpreter,
    [-m] and [jupyterhub.singleuser], then the caller's arguments in their
    order, unchanged; joined with spaces it ends the job script that is
    handed to [qsub], the only program [spawn] starts. *)
Theorem launch_command_fixed_prefix (W : world) (args : list string)
    (env : gmap string string) (st : state) (token : string) :
  has_port args = true →
  env !! "JPY_API_TOKEN" = Some token →
  let cmd := export_statement "JPY_API_TOKEN" token
               :: sys_executable W :: "-m" :: "jupyterhub.singleuser" :: args in
  launch_command W args env st = (Ok cmd, st) ∧
  ∃ port, calls (snd (spawn W args env st)) =
            calls st ++ [qsub W (sanitized env) (job_script W port (String.concat " " cmd))].
Proof.
  intros Hport Htok cmd. split; [by apply launch_command_eq|].
  destruct (spawn_eq W args env st token Hport Htok) as (port & _ & Hspawn).
  exists port. cbv zeta in Hspawn. by rewrite Hspawn.
Qed.

Lemma launch_command_fixed_prefix_witness :
  let cmd := export_statement "JPY_API_TOKEN" "abc"
               :: sys_executable lab :: "-m" :: "jupyterhub.singleuser" :: ["--port=8888"] in
  launch_command lab ["--port=8888"] lab_env initial = (Ok cmd, initial) ∧
  ∃ port, calls (snd (spawn lab ["--port=8888"] lab_env initial)) =
            calls initial ++ [qsub lab (sanitized lab_env)
                                (job_script lab port (String.concat " " cmd))].
Proof.
  apply (launch_command_fixed_prefix lab ["--port=8888"] lab_env initial "abc"); reflexivity.
Defined.

(** The three ways a [spawn] ends, by what the request carries. *)
Lemma spawn_cases (W : world) (args : list string) (env : gmap string string)
    (st : state) :
  spawn W args env st = (Raise (UnboundLocalError "port"), st) ∨
  spawn W args env st = (Raise (KeyError "JPY_API_TOKEN"), st) ∨
  ∃ text script records,
    spawn W args env st =
      (Ok (), written sys_stdout text
                (called (qsub W (sanitized env) script) (fresh_pipe (logged records st)))).
Proof.
  destruct (has_port args) eqn:Hport; [|left; by apply spawn_without_port].
  destruct (env !! "JPY_API_TOKEN") as [token|] eqn:Htok;
    [|right; left; by apply spawn_without_token].
  destruct (spawn_eq W args env st token Hport Htok) as (port & _ & Hspawn).
  right; right. eauto.
Qed.

(** The key changes nothing but the log: with or without it the outcome,
    the output and the programs started are the same. *)
Lemma spawn_ignores_pythonpath (W : world) (args : list string)
    (env : gmap string string) (st : state) :
  fst (spawn W args env st) = fst (spawn W args (sanitized env) st) ∧
  stdout (snd (spawn W args env st)) = stdout (snd (spawn W args (sanitized env) st)) ∧
  calls (snd (spawn W args env st)) = calls (snd (spawn W args (sanitized env) st)).
Proof.
  assert (sanitized env !! "JPY_API_TOKEN" = env !! "JPY_API_TOKEN") as Hsame
    by by apply lookup_delete_ne.
  destruct (has_port args) eqn:Hport; [|by rewrite !spawn_without_port].
  destruct (env !! "JPY_API_TOKEN") as [token|] eqn:Htok;
    [|by rewrite !spawn_without_token by congruence].
  destruct (spawn_eq W args env st token Hport Htok) as (port & Hscan & ->).
  destruct (spawn_eq W args (sanitized env) st token Hport) as (port' & Hscan' & ->);
    [congruence|].
  assert (port' = port) as -> by congruence.
  unfold sanitized. by rewrite delete_delete_eq.
Qed.

(** C4. When [env] carries [PYTHONPATH], whatever else it carries: no
    program [spawn] starts is handed an environment with that key; the key
    is not fatal, for the outcome is the one of the same request without
    it; and a request that has its port entry and its token goes on: the
    warning is logged, [qsub] is started with every other key of [env] and
    [spawn] returns. *)
Theorem spawn_strips_pythonpath (W : world) (args : list string)
    (env : gmap string string) (st : state) :
  is_Some (env !! "PYTHONPATH") →
  Forall (λ i, ∀ passed, inv_env i = Some passed → passed !! "PYTHONPATH" = None)
    (drop (length (calls st)) (calls (snd (spawn W args env st)))) ∧
  fst (spawn W args env st) = fst (spawn W args (sanitized env) st) ∧
  ∀ token, has_port args = true → env !! "JPY_API_TOKEN" = Some token →
    fst (spawn W args env st) = Ok () ∧
    pythonpath_warning ∈ log (snd (spawn W args env st)) ∧
    ∃ passed script,
      calls (snd (spawn W args env st)) = calls st ++ [qsub W passed script] ∧
      passed !! "PYTHONPATH" = None ∧
      ∀ k, k ≠ "PYTHONPATH" → passed !! k = env !! k.
Proof.
  intros Hpy. split; [|split; [apply spawn_ignores_pythonpath|]].
  - destruct (spawn_cases W args env st) as [->|[->|(text & script & records & ->)]];
      cbn [snd]; rewrite ?drop_all; [constructor..|].
    cbn [written calls called fresh_pipe logged]. rewrite drop_app_length.
    repeat constructor. intros passed [= <-]. apply lookup_delete_eq.
  - intros token Hport Htok.
    destruct (spawn_eq W args env st token Hport Htok) as (port & _ & ->).
    split; [done|]. split.
    + cbn. unfold spawn_records. rewrite bool_decide_eq_true_2 by done.
      rewrite elem_of_app, !elem_of_cons. auto.
    + eexists (sanitized env), _. split; [reflexivity|]. unfold sanitized. split.
      * apply lookup_delete_eq.
      * intros k Hk. by apply lookup_delete_ne.
Qed.

Lemma spawn_strips_pythonpath_witness :
  Forall (λ i, ∀ passed, inv_env i = Some passed → passed !! "PYTHONPATH" = None)
    (calls (snd (spawn lab ["--port=8888"] lab_env initial))) ∧
  fst (spawn lab ["--port=8888"] lab_env initial) = Ok () ∧
  pythonpath_warning ∈ log (snd (spawn lab ["--port=8888"] lab_env initial)) ∧
  ∃ passed script,
    calls (snd (spawn lab ["--port=8888"] lab_env initial)) = [qsub lab passed script] ∧
    passed !! "PYTHONPATH" = None ∧
    ∀ k, k ≠ "PYTHONPATH" → passed !! k = lab_env !! k.
Proof.
  destruct (spawn_strips_pythonpath lab ["--port=8888"] lab_env initial)
    as (Hnone & _ & Hgoes); [exists "/evil"; reflexivity|].
  split; [exact Hnone|]. apply (Hgoes "abc"); reflexivity.
Defined.

(** C5. When the decoder rejects the text on standard input, [main] leaves
    through [sys.exit(1)]: the exit status is 1, nothing has been written
    to standard output and no program has been started. *)
Theorem malformed_input_exits_nonzero (W : world) (stdin msg : string) :
  json_load W stdin = inr msg →
  fst (run_mediator W stdin) = Raise (SystemExit 1) ∧
  exit_status (fst (run_mediator W stdin)) = Some 1 ∧
  stdout (snd (run_mediator W stdin)) = "" ∧
  calls (snd (run_mediator W stdin)) = [].
Proof.
  intros H. unfold run_mediator. by rewrite (main_decode_error W stdin msg initial H).
Qed.

Lemma malformed_input_exits_nonzero_witness :
  fst (run_mediator lab "not json") = Raise (SystemExit 1) ∧
  exit_status (fst (run_mediator lab "not json")) = Some 1 ∧
  stdout (snd (run_mediator lab "not json")) = "" ∧
  calls (snd (run_mediator lab "not json")) = [].
Proof.
  apply (malformed_input_exits_nonzero lab "not json" "Expecting value"). reflexivity.
Defined.

(** C6. A spawn request none of whose arguments contains [--port=] fails
    when [port] is read: [spawn] raises [UnboundLocalError] from the state
    it was called in, and the process ends with status 1, nothing written
    and no program started.  (An argument counts as a port entry when
    [--port=] occurs in it, which is the test the loop makes.) *)
Theorem spawn_without_port_is_fatal (W : world) (stdin : string)
    (args : list string) (env : gmap string string) (st : state) :
  has_port args = false →
  json_load W stdin = inl (spawn_request args env) →
  spawn W args env st = (Raise (UnboundLocalError "port"), st) ∧
  fst (run_mediator W stdin) = Raise (UnboundLocalError "port") ∧
  exit_status (fst (run_mediator W stdin)) = Some 1 ∧
  stdout (snd (run_mediator W stdin)) = "" ∧
  calls (snd (run_mediator W stdin)) = [].
Proof.
  intros Hport Hload. split; [by apply spawn_without_port|].
  unfold run_mediator.
  by rewrite (main_spawn W stdin args env initial Hload), spawn_without_port.
Qed.

Lemma spawn_without_port_is_fatal_witness :
  let args := ["--ip=0.0.0.0"] in
  let env : gmap string string := {[ "JPY_API_TOKEN" := "abc" ]} in
  spawn lab args env initial = (Raise (UnboundLocalError "port"), initial) ∧
  fst (run_mediator lab lab_portless_text) = Raise (UnboundLocalError "port") ∧
  exit_status (fst (run_mediator lab lab_portless_text)) = Some 1 ∧
  stdout (snd (run_mediator lab lab_portless_text)) = "" ∧
  calls (snd (run_mediator lab lab_portless_text)) = [].
Proof.
  apply (spawn_without_port_is_fatal lab lab_portless_text
           ["--ip=0.0.0.0"] {[ "JPY_API_TOKEN" := "abc" ]} initial);
    [reflexivity | vm_compute; reflexivity].
Defined.

(** C7. When the decoded dictionary has an [action] that is neither
    ['kill'] nor ['spawn'], [main] raises its [TypeError]: neither
    executor has run (the log holds the opening record of [main] only, no
    program has been started), nothing has been written, and the exit
    status is 1. *)
Theorem unknown_action_is_fatal (W : world) (stdin : string)
    (d : gmap string json) (action : json) :
  json_load W stdin = inl (JObj d) →
  d !! "action" = Some action →
  action ≠ JStr "kill" →
  action ≠ JStr "spawn" →
  run_mediator W stdin =
    (Raise (TypeError "action must be 'spawn' or 'kill'"), logged [start_record W] initial) ∧
  exit_status (fst (run_mediator W stdin)) = Some 1 ∧
  stdout (snd (run_mediator W stdin)) = "" ∧
  log (snd (run_mediator W stdin)) = [start_record W] ∧
  calls (snd (run_mediator W stdin)) = [].
Proof.
  intros Hload Hact Hkill Hspawn. unfold run_mediator.
  rewrite (main_dispatch W stdin d action initial Hload Hact).
  by rewrite !py_eq_str_false by done.
Qed.

Lemma unknown_action_is_fatal_witness :
  run_mediator lab lab_restart_text =
    (Raise (TypeError "action must be 'spawn' or 'kill'"), logged [start_record lab] initial) ∧
  exit_status (fst (run_mediator lab lab_restart_text)) = Some 1 ∧
  stdout (snd (run_mediator lab lab_restart_text)) = "" ∧
  log (snd (run_mediator lab lab_restart_text)) = [start_record lab] ∧
  calls (snd (run_mediator lab lab_restart_text)) = [].
Proof.
  apply (unknown_action_is_fatal lab lab_restart_text
           {[ "action" := JStr "restart"; "pid" := JInt 1234 ]} (JStr "restart"));
    [vm_compute; reflexivity | reflexivity | discriminate | discriminate].
Defined.

(** C8. [finish] writes the JSON text of [{'alive': alive}] to the stream
    it is given, and that text only; decoded, the text is the object whose
    single member is [alive].  So what the kill path leaves on a fresh
    standard output decodes to exactly that object. *)
Theorem finish_alive_round_trip (alive : bool) (st : state) :
  fst (finish (KillResult alive) sys_stdout st) = Ok () ∧
  stdout (snd (finish (KillResult alive) sys_stdout st)) =
    (if detached st then stdout st else stdout st +:+ json_dump (KillResult alive)) ∧
  pipe (snd (finish (KillResult alive) pipe_w st)) = pipe st +:+ json_dump (KillResult alive) ∧
  json_loads (json_dump (KillResult alive)) = inl (JObj {[ "alive" := JBool alive ]}) ∧
  json_loads (stdout (snd (finish (KillResult alive) sys_stdout initial))) =
    inl (JObj {[ "alive" := JBool alive ]}).
Proof.
  rewrite !finish_eq. repeat split; by destruct alive.
Qed.

(** C10, as it is worded, fails on a request that has neither a port
    entry nor the token: [port] is read at the substitution before
    [env[k]] is looked up, so the exception is the [UnboundLocalError] of
    [port], which is no lookup error ([KeyError] or [IndexError]). *)
Lemma spawn_requires_api_token_counterexample :
  let args := ["--ip=0.0.0.0"] in
  let env : gmap string string := ∅ in
  env !! "JPY_API_TOKEN" = None ∧
  spawn lab args env initial = (Raise (UnboundLocalError "port"), initial) ∧
  (∀ key, UnboundLocalError "port" ≠ KeyError key) ∧
  UnboundLocalError "port" ≠ IndexError.
Proof. cbv zeta. repeat split; discriminate. Qed.

(** C10, amended.  Without [JPY_API_TOKEN] in [env], [spawn] raises and
    leaves the state as it found it: [qsub] has not been started and no
    result has been written.  For a request with a port entry the
    exception is the [KeyError] of the lookup [env[k]]; for a request
    without one it is the [UnboundLocalError] of [port], met first. *)
Theorem spawn_requires_api_token (W : world) (args : list string)
    (env : gmap string string) (st : state) :
  env !! "JPY_API_TOKEN" = None →
  (∃ e, spawn W args env st = (Raise e, st)) ∧
  (has_port args = true →
   spawn W args env st = (Raise (KeyError "JPY_API_TOKEN"), st)) ∧
  (has_port args = false →
   spawn W args env st = (Raise (UnboundLocalError "port"), st)).
Proof.
  intros Htok. split; [|split].
  - destruct (has_port args) eqn:Hport.
    + exists (KeyError "JPY_API_TOKEN"). by apply spawn_without_token.
    + exists (UnboundLocalError "port"). by apply spawn_without_port.
  - intros Hport. by apply spawn_without_token.
  - intros Hport. by apply spawn_without_port.
Qed.

Lemma spawn_requires_api_token_witness :
  spawn lab ["--port=8888"] {[ "PYTHONPATH" := "/evil" ]} initial =
    (Raise (KeyError "JPY_API_TOKEN"), initial).
Proof.
  destruct (spawn_requires_api_token lab ["--port=8888"] {[ "PYTHONPATH" := "/evil" ]} initial)
    as (_ & Hkey & _); [reflexivity|].
  apply Hkey. reflexivity.
Defined.

(** ** The two scenarios of the specification, run in the laboratory *)

Example scenario_kill_running :
  fst (run_mediator lab lab_kill_text) = Ok () ∧
  exit_status (fst (run_mediator lab lab_kill_text)) = Some 0 ∧
  stdout (snd (run_mediator lab lab_kill_text)) = json_dump (KillResult true) ∧
  calls (snd (run_mediator lab lab_kill_text)) = [qstat 1234].
Proof. by vm_compute. Qed.

Example scenario_spawn :
  fst (run_mediator lab lab_spawn_text) = Ok () ∧
  exit_status (fst (run_mediator lab lab_spawn_text)) = Some 0 ∧
  stdout (snd (run_mediator lab lab_spawn_text)) = json_dump (SpawnResult 5678) ∧
  inv_env <$> calls (snd (run_mediator lab lab_spawn_text)) =
    [Some {[ "JPY_API_TOKEN" := "abc" ]}].
Proof. by vm_compute. Qed.

(** * Further properties of the script *)

(** ** [kill] on every signal *)

Lemma kill_calls (W : world) (pid signal : Z) (st : state) :
  calls (snd (kill W pid signal st)) =
    calls st ++ (if signal =? 0 then [qstat pid]
                 else if bool_decide (signal ∈ [2; 9; 15]) then [qdel W pid]
                 else []).
Proof.
  unfold kill, check_output, Popen, finish, write, app_log, read_local, raise.
  unfold mbind, M_bind, mret, M_ret.
  destruct (signal =? 0) eqn:Hzero.
  - apply Z.eqb_eq in Hzero as ->.
    rewrite bool_decide_eq_false_2 by (rewrite !elem_of_cons, elem_of_nil; lia).
    change (inv_argv (qstat pid)) with ["qstat"; "-x"; pretty pid].
    fold (qstat pid).
    destruct (run W (qstat pid)) as [c|]; [|done].
    destruct (returncode c =? 0); [|done].
    destruct (find_job_state W (captured c)); done.
  - destruct (bool_decide (signal ∈ [2; 9; 15])).
    + destruct (run W (qdel W pid)) as [c|]; [|done].
      by destruct (returncode c =? 0).
    + cbn. by rewrite app_nil_r.
Qed.

(** X1. [kill] starts at most one program, and the signal alone decides
    which: the status query for signal 0, [qdel] for 2, 9 and 15, none for
    any other signal, whatever the programs answer.  A probe therefore
    never starts [qdel]. *)
Theorem kill_starts_one_program (W : world) (pid signal : Z) (st : state) :
  calls (snd (kill W pid signal st)) =
    calls st ++ (if signal =? 0 then [qstat pid]
                 else if bool_decide (signal ∈ [2; 9; 15]) then [qdel W pid]
                 else []) ∧
  (length (calls (snd (kill W pid signal st))) ≤ length (calls st) + 1)%nat ∧
  qdel W pid ∉ drop (length (calls st)) (calls (snd (kill W pid 0 st))).
Proof.
  rewrite !kill_calls. split; [done|]. split.
  - rewrite length_app. destruct (signal =? 0); [simpl; lia|].
    destruct (bool_decide _); simpl; lia.
  - rewrite drop_app_length. cbn. rewrite elem_of_cons, elem_of_nil.
    intros [[=]|[]].
Qed.

(** X2. A signal other than 0, 2, 9 and 15 reaches neither branch: [alive]
    is unbound when [finish] is called, so [kill] raises
    [UnboundLocalError] having started no program and written nothing. *)
Theorem kill_unsupported_signal (W : world) (pid signal : Z) (st : state) :
  signal ≠ 0 →
  signal ∉ [2; 9; 15] →
  kill W pid signal st =
    (Raise (UnboundLocalError "alive"),
     logged [LogRecord DEBUG "Sending signal %i to %i" [ArgInt signal; ArgInt pid]] st).
Proof.
  intros Hzero Hterm. unfold kill. step.
  apply Z.eqb_neq in Hzero. rewrite Hzero. step.
  rewrite bool_decide_eq_false_2 by done. step.
  reflexivity.
Qed.

Lemma kill_unsupported_signal_witness :
  kill lab 1234 1 initial =
    (Raise (UnboundLocalError "alive"),
     logged [LogRecord DEBUG "Sending signal %i to %i" [ArgInt 1; ArgInt 1234]] initial).
Proof.
  apply (kill_unsupported_signal lab 1234 1 initial); [discriminate|].
  rewrite !elem_of_cons, elem_of_nil. lia.
Defined.

(** X3. When the status query of a probe exits with a non-zero code,
    [check_output] raises [CalledProcessError]: [kill] writes no result,
    and does not report the job as not alive. *)
Theorem kill_probe_query_failed (W : world) (pid : Z) (st : state) (c : completed) :
  run W (qstat pid) = Some c →
  returncode c ≠ 0 →
  fst (kill W pid 0 st) = Raise (CalledProcessError (returncode c)) ∧
  stdout (snd (kill W pid 0 st)) = stdout st.
Proof.
  intros Hrun Hrc. unfold kill. step. rewrite Z.eqb_refl.
  assert (check_output W (inv_argv (qstat pid))
            (logged [LogRecord DEBUG "Sending signal %i to %i" [ArgInt 0; ArgInt pid]] st)
          = (Raise (CalledProcessError (returncode c)),
             called (qstat pid)
               (logged [LogRecord DEBUG "Sending signal %i to %i" [ArgInt 0; ArgInt pid]] st)))
    as Hout.
  { unfold check_output. erewrite bind_ok by by apply Popen_completed.
    apply Z.eqb_neq in Hrc. by rewrite Hrc. }
  erewrite bind_raise; [|erewrite bind_raise; [reflexivity|exact Hout]]. done.
Qed.

Lemma kill_probe_query_failed_witness :
  fst (kill lab 4321 0 initial) = Raise (CalledProcessError 153) ∧
  stdout (snd (kill lab 4321 0 initial)) = stdout initial.
Proof.
  apply (kill_probe_query_failed lab 4321 initial (Completed 153 ""));
    [reflexivity | discriminate].
Defined.

(** X4. When the status record of a probe has no [job_state] element,
    [find] returns [None] and taking its [string] raises
    [AttributeError]: [kill] writes no result. *)
Theorem kill_probe_without_record (W : world) (pid : Z) (st : state) (c : completed) :
  run W (qstat pid) = Some c →
  returncode c = 0 →
  find_job_state W (captured c) = None →
  (∃ msg, fst (kill W pid 0 st) = Raise (AttributeError msg)) ∧
  stdout (snd (kill W pid 0 st)) = stdout st.
Proof.
  intros Hrun Hrc Hfind. unfold kill. step. rewrite Z.eqb_refl.
  erewrite bind_raise.
  2: { erewrite bind_ok by by apply check_output_ok. by rewrite Hfind. }
  eauto.
Qed.

Lemma kill_probe_without_record_witness :
  (∃ msg, fst (kill lab_silent 1234 0 initial) = Raise (AttributeError msg)) ∧
  stdout (snd (kill lab_silent 1234 0 initial)) = stdout initial.
Proof.
  apply (kill_probe_without_record lab_silent 1234 initial (Completed 0 "")); reflexivity.
Defined.

(** ** Decimal text *)

Lemma app_String (c : ascii) (a b : string) : String c a +:+ b = String c (a +:+ b).
Proof. reflexivity. Qed.

Lemma app_empty_r (a : string) : a +:+ "" = a.
Proof. induction a as [|c a IH]; [done|]. by rewrite app_String, IH. Qed.

Lemma app_assoc_string (a b c : string) : (a +:+ b) +:+ c = a +:+ (b +:+ c).
Proof. induction a as [|x a IH]; [done|]. by rewrite !app_String, IH. Qed.

Lemma digits_value_app (acc : Z) (a b : string) :
  digits_value acc (a +:+ b) = digits_value (digits_value acc a) b.
Proof. revert acc. induction a as [|c a IH]; intros acc; [done|]. rewrite app_String. apply IH. Qed.

Lemma all_chars_app (p : ascii → bool) (a b : string) :
  all_chars p (a +:+ b) = all_chars p a && all_chars p b.
Proof.
  induction a as [|c a IH]; [done|]. rewrite app_String. simpl.
  by rewrite IH, andb_assoc.
Qed.

Lemma pretty_N_char_digit (x : N) :
  (x < 10)%N →
  digit_value (pretty_N_char x) = Some (Z.of_N x) ∧
  is_digit (pretty_N_char x) = true ∧
  (0 < x → pretty_N_char x ≠ "0"%char)%N.
Proof.
  intros Hx.
  assert (x = 0 ∨ x = 1 ∨ x = 2 ∨ x = 3 ∨ x = 4 ∨ x = 5 ∨ x = 6
          ∨ x = 7 ∨ x = 8 ∨ x = 9)%N as Hcases by lia.
  destruct Hcases as [->|[->|[->|[->|[->|[->|[->|[->|[->| ->]]]]]]]]];
    (split; [reflexivity|split; [reflexivity|]]); intros; try lia; discriminate.
Qed.

(** What [pretty] prints for a number: its decimal digits, most
    significant first, without a leading zero. *)
Lemma pretty_N_go_digits (x : N) (s : string) :
  ∃ ds, pretty_N_go x s = ds +:+ s ∧
        all_chars is_digit ds = true ∧
        (∀ acc, digits_value acc ds = acc * 10 ^ Z.of_nat (String.length ds) + Z.of_N x) ∧
        (x = 0%N → ds = "") ∧
        ((0 < x)%N → ∃ c rest, ds = String c rest ∧ c ≠ "0"%char).
Proof.
  revert s. induction (N.lt_wf_0 x) as [x _ IH]; intros s.
  assert (x = 0 ∨ 0 < x)%N as [->|Hpos] by lia.
  { exists "". rewrite pretty_N_go_0. repeat split; [|lia].
    intros acc. change (acc = acc * 1 + 0). lia. }
  rewrite pretty_N_go_step by done.
  destruct (IH (x `div` 10)%N) with (s := String (pretty_N_char (x `mod` 10)) s)
    as (ds & -> & Hall & Hval & Hzero & Hlead); [by apply N.div_lt|].
  destruct (pretty_N_char_digit (x `mod` 10)%N) as (Hd & Hisd & Hnz);
    [by apply N.mod_lt|].
  exists (ds +:+ String (pretty_N_char (x `mod` 10)) "").
  split; [by rewrite app_assoc_string|]. split; [|split; [|split]].
  - rewrite all_chars_app, Hall. simpl. by rewrite Hisd.
  - intros acc. rewrite digits_value_app, Hval. simpl. rewrite Hd. simpl.
    assert (String.length (ds +:+ String (pretty_N_char (x `mod` 10)) "")
            = S (String.length ds)) as ->.
    { clear. induction ds as [|c ds IH]; [done|]. rewrite app_String. simpl. by rewrite IH. }
    rewrite Nat2Z.inj_succ, Z.pow_succ_r by lia.
    pose proof (N.div_mod x 10). lia.
  - lia.
  - intros _. destruct (N.eq_0_gt_0_cases (x `div` 10)) as [Hz|Hq].
    + rewrite (Hzero Hz). eexists _, _. split; [reflexivity|]. apply Hnz.
      pose proof (N.div_mod x 10). lia.
    + destruct (Hlead Hq) as (c & rest & -> & Hc). rewrite app_String. eauto.
Qed.

Lemma digit_cases (c : ascii) :
  is_digit c = true →
  c ∈ ["0"; "1"; "2"; "3"; "4"; "5"; "6"; "7"; "8"; "9"]%char.
Proof.
  destruct c as [[] [] [] [] [] [] [] []]; intros H; vm_compute in H;
    try discriminate; rewrite !elem_of_cons; tauto.
Qed.

Ltac by_digit H :=
  apply digit_cases in H; rewrite !elem_of_cons, elem_of_nil in H;
  destruct H as [->|[->|[->|[->|[->|[->|[->|[->|[->|[->|[]]]]]]]]]]].

Lemma int_digits_plain (acc : Z) (ds : string) :
  all_chars is_digit ds = true → int_digits acc ds = Some (digits_value acc ds).
Proof.
  revert acc. induction ds as [|c ds IH]; intros acc; [done|].
  simpl. intros [Hc Hds]%andb_true_iff. by_digit Hc; apply (IH _ Hds).
Qed.

Lemma lstrip_head (sp : ascii → bool) (c : ascii) (s : string) :
  sp c = false → lstrip sp (String c s) = String c s.
Proof. intros H. simpl. by rewrite H. Qed.

Lemma rstrip_plain (sp : ascii → bool) (s : string) :
  all_chars (λ c, negb (sp c)) s = true → rstrip sp s = s.
Proof.
  induction s as [|c s IH]; [done|]. simpl.
  intros [Hc Hs]%andb_true_iff. rewrite (IH Hs).
  apply negb_true_iff in Hc. rewrite Hc. by destruct s.
Qed.

Lemma digits_no_space (sp : ascii → bool) (ds : string) :
  (∀ c, is_digit c = true → sp c = false) →
  all_chars is_digit ds = true → all_chars (λ c, negb (sp c)) ds = true.
Proof.
  intros Hsp. induction ds as [|c ds IH]; [done|]. simpl.
  intros [Hc Hds]%andb_true_iff. by rewrite (Hsp c Hc), IH.
Qed.

Lemma digit_not_bytes_space (c : ascii) : is_digit c = true → bytes_isspace c = false.
Proof. intros H. by by_digit H. Qed.

(** [int] reads a run of digits as the number they spell, with or without
    a minus sign before them. *)
Lemma py_int_digits (ds : string) :
  ds ≠ "" → all_chars is_digit ds = true →
  py_int ds = Some (digits_value 0 ds) ∧
  py_int ("-" +:+ ds) = Some (- digits_value 0 ds).
Proof.
  intros Hne Hall. destruct ds as [|c ds]; [done|].
  pose proof Hall as Hplain.
  apply (digits_no_space bytes_isspace) in Hplain; [|apply digit_not_bytes_space].
  simpl in Hall. apply andb_true_iff in Hall as [Hc Hds].
  unfold py_int, strip. split.
  - rewrite lstrip_head by by apply digit_not_bytes_space.
    rewrite rstrip_plain by done.
    pose proof (int_digits_plain) as Hint.
    by_digit Hc; cbn; vm_compute (digit_value _); cbn; by rewrite Hint.
  - change ("-" +:+ String c ds) with (String "-" (String c ds)).
    rewrite lstrip_head by done.
    rewrite rstrip_plain by (simpl; simpl in Hplain; by rewrite Hplain).
    pose proof (int_digits_plain) as Hint.
    by_digit Hc; cbn; vm_compute (digit_value _); cbn; by rewrite Hint.
Qed.

Lemma pretty_positive_digits (p : positive) :
  ∃ c rest, pretty (Z.pos p) = String c rest ∧ c ≠ "0"%char ∧
            all_chars is_digit (String c rest) = true ∧
            digits_value 0 (String c rest) = Z.pos p.
Proof.
  destruct (pretty_N_go_digits (N.pos p) "") as (ds & Hds & Hall & Hval & _ & Hlead).
  destruct Hlead as (c & rest & -> & Hc); [lia|].
  exists c, rest. rewrite app_empty_r in Hds.
  split; [exact Hds|]. split; [done|]. split; [done|].
  rewrite Hval. lia.
Qed.

(** [int(str(n)) = n]: [int] reads the decimal text of an integer back as
    that integer. *)
Lemma py_int_pretty (n : Z) : py_int (pretty n) = Some n.
Proof.
  destruct n as [|p|p].
  - reflexivity.
  - destruct (pretty_positive_digits p) as (c & rest & Hp & _ & Hall & Hval).
    rewrite Hp. destruct (py_int_digits (String c rest)) as [-> _]; [done..|].
    by rewrite Hval.
  - destruct (pretty_positive_digits p) as (c & rest & Hp & _ & Hall & Hval).
    change (pretty (Z.neg p)) with ("-" +:+ pretty (Z.pos p)).
    rewrite Hp. destruct (py_int_digits (String c rest)) as [_ ->]; [done..|].
    by rewrite Hval.
Qed.

(** ** The answer of [qsub] *)

Lemma numeric_cases (c : ascii) :
  numeric c = true →
  bytes_isspace c = false ∧ (c =? ".")%char = false ∧ (nat_of_ascii c <? 128)%nat = true.
Proof.
  unfold numeric. intros [H|H]%orb_true_iff.
  - by by_digit H.
  - by apply Ascii.eqb_eq in H as ->.
Qed.

Lemma all_chars_impl (p q : ascii → bool) (s : string) :
  (∀ c, p c = true → q c = true) → all_chars p s = true → all_chars q s = true.
Proof.
  intros Hpq. induction s as [|c s IH]; [done|]. simpl.
  intros [Hc Hs]%andb_true_iff. by rewrite (Hpq c Hc), IH.
Qed.

Lemma pretty_numeric (n : Z) : pretty n ≠ "" ∧ all_chars numeric (pretty n) = true.
Proof.
  assert (∀ p, pretty (Z.pos p) ≠ "" ∧ all_chars numeric (pretty (Z.pos p)) = true) as Hpos.
  { intros p. destruct (pretty_positive_digits p) as (c & rest & -> & _ & Hall & _).
    split; [done|]. revert Hall. apply all_chars_impl.
    intros x Hx. unfold numeric. by rewrite Hx. }
  destruct n as [|p|p]; [done|apply Hpos|].
  change (pretty (Z.neg p)) with ("-" +:+ pretty (Z.pos p)).
  split; [done|]. rewrite all_chars_app. by destruct (Hpos p) as [_ ->].
Qed.

Lemma is_ascii_all_chars (s : string) :
  is_ascii s = all_chars (λ c, (nat_of_ascii c <? 128)%nat) s.
Proof. induction s as [|c s IH]; [done|]. simpl. by rewrite IH. Qed.

Lemma all_chars_rstrip (p sp : ascii → bool) (s : string) :
  all_chars p s = true → all_chars p (rstrip sp s) = true.
Proof.
  induction s as [|c s IH]; [done|]. simpl.
  intros [Hc Hs]%andb_true_iff. specialize (IH Hs).
  destruct (rstrip sp s) as [|d kept].
  - destruct (sp c); [done|]. simpl. by rewrite Hc.
  - simpl. simpl in IH. by rewrite Hc, IH.
Qed.

Lemma rstrip_app (sp : ascii → bool) (a b : string) :
  a ≠ "" → all_chars (λ c, negb (sp c)) a = true →
  rstrip sp (a +:+ b) = a +:+ rstrip sp b.
Proof.
  induction a as [|c a IH]; [done|]. intros _. simpl.
  intros [Hc Ha]%andb_true_iff. apply negb_true_iff in Hc.
  destruct a as [|d a].
  - change ("" +:+ b) with b. change ("" +:+ rstrip sp b) with (rstrip sp b).
    destruct (rstrip sp b); [by rewrite Hc|done].
  - rewrite IH by done. reflexivity.
Qed.

Lemma py_split_app (sep : ascii) (a b : string) :
  all_chars (λ c, negb (c =? sep)%char) a = true →
  py_split sep (a +:+ String sep b) = a :: py_split sep b.
Proof.
  induction a as [|c a IH].
  - intros _. change ("" +:+ String sep b) with (String sep b).
    simpl. by rewrite Ascii.eqb_refl.
  - cbn [all_chars]. intros [Hc Ha]%andb_true_iff. apply negb_true_iff in Hc.
    rewrite app_String. simpl. by rewrite Hc, IH.
Qed.

(** The child reads the job number off an answer of the form
    [<number>.<host>], whatever white space follows it. *)
Lemma submitted_job_reads_number (W : world) (env : gmap string string)
    (script host : string) (c : completed) (n : Z) :
  run W (qsub W env script) = Some c →
  captured c = pretty n +:+ "." +:+ host →
  is_ascii host = true →
  submitted_job W env script = Some n.
Proof.
  intros Hrun Hout Hhost. unfold submitted_job. rewrite Hrun. cbn [mbind option_bind].
  rewrite Hout. destruct (pretty_numeric n) as [Hne Hnum].
  assert (all_chars (λ c, negb (bytes_isspace c)) (pretty n) = true) as Hsp.
  { revert Hnum. apply all_chars_impl. intros x Hx.
    by destruct (numeric_cases x Hx) as (-> & _ & _). }
  assert (all_chars (λ c, negb (c =? ".")%char) (pretty n) = true) as Hdot.
  { revert Hnum. apply all_chars_impl. intros x Hx.
    by destruct (numeric_cases x Hx) as (_ & -> & _). }
  assert (is_ascii (pretty n) = true) as Hasc.
  { rewrite is_ascii_all_chars. revert Hnum. apply all_chars_impl. intros x Hx.
    by destruct (numeric_cases x Hx) as (_ & _ & ->). }
  assert (strip bytes_isspace (pretty n +:+ "." +:+ host)
          = pretty n +:+ String "." (rstrip bytes_isspace host)) as ->.
  { unfold strip. destruct (pretty n) as [|d ds] eqn:Hp; [done|].
    simpl in Hsp. apply andb_true_iff in Hsp as [Hd Hds].
    rewrite app_String, lstrip_head by by apply negb_true_iff.
    rewrite <-app_String.
    replace (String d ds +:+ "." +:+ host) with ((String d ds +:+ ".") +:+ host)
      by by rewrite app_assoc_string.
    rewrite rstrip_app.
    - by rewrite app_assoc_string.
    - by rewrite app_String.
    - rewrite all_chars_app. simpl. by rewrite Hd, Hds. }
  assert (is_ascii (pretty n +:+ String "." (rstrip bytes_isspace host)) = true) as ->.
  { rewrite !is_ascii_all_chars in *. rewrite all_chars_app, Hasc. simpl.
    by apply all_chars_rstrip. }
  rewrite py_split_app by done. cbn [head mbind option_bind].
  apply py_int_pretty.
Qed.

(** ** The port *)

Lemma prefix_app (p s : string) : String.prefix p (p +:+ s) = true.
Proof.
  induction p as [|c p IH]; [by destruct s|].
  rewrite app_String. simpl. by destruct (ascii_dec c c).
Qed.

Lemma py_in_prefix (needle hay : string) :
  String.prefix needle hay = true → py_in needle hay = true.
Proof.
  intros H. destruct hay as [|c hay].
  - change (String.prefix needle "" || false = true). by rewrite H.
  - change (String.prefix needle (String c hay) || py_in needle hay = true). by rewrite H.
Qed.

(** X5. The loop that looks for the port never raises: a line that contains
    [--port=] contains an equals sign, so the second piece of its split
    exists.  The loop leaves the state alone, binds [port] exactly when
    some line contains [--port=], and otherwise leaves it as it was. *)
Theorem scan_port_never_raises (args : list string) (port0 : option string) (st : state) :
  ∃ port, scan_port args port0 st = (Ok port, st) ∧
          (has_port args = true → is_Some port) ∧
          (has_port args = false → port = port0).
Proof.
  destruct (has_port args) eqn:Hport.
  - destruct (scan_port_present args port0 st Hport) as [value ->].
    exists (Some value). split; [done|]. split; [eauto|done].
  - exists port0. rewrite scan_port_absent by done. split; [done|]. by split.
Qed.

(** X6. When several arguments contain [--port=], the last one gives the
    port: what an earlier argument set is overwritten. *)
Theorem scan_port_last_wins (earlier later : list string) (line : string)
    (port0 : option string) (st : state) :
  py_in "--port=" line = true →
  has_port later = false →
  scan_port (earlier ++ line :: later) port0 st = (Ok (py_split "=" line !! 1%nat), st).
Proof.
  intros Hline Hlater. revert port0.
  induction earlier as [|first earlier IH]; intros port0; simpl.
  - rewrite Hline. destruct (port_line_splits line Hline) as [value ->].
    by apply scan_port_absent.
  - destruct (py_in "--port=" first) eqn:Hfirst; [|apply IH].
    destruct (port_line_splits first Hfirst) as [value ->]. apply IH.
Qed.

Lemma scan_port_last_wins_witness :
  scan_port (["--port=1111"] ++ "--port=2222" :: ["--ip=0.0.0.0"]) None initial =
    (Ok (py_split "=" "--port=2222" !! 1%nat), initial).
Proof.
  apply (scan_port_last_wins ["--port=1111"] ["--ip=0.0.0.0"] "--port=2222" None initial);
    reflexivity.
Defined.

(** X7. For an argument [--port=<value>] the port is the value up to its
    first equals sign: the whole value when it has none, and only the
    part before it otherwise. *)
Theorem port_of_entry (value : string) (st : state) :
  all_chars (λ c, negb (c =? "=")%char) value = true →
  scan_port ["--port=" +:+ value] None st = (Ok (Some value), st) ∧
  ∀ more, scan_port ["--port=" +:+ value +:+ "=" +:+ more] None st = (Ok (Some value), st).
Proof.
  intros Hvalue.
  assert (∀ tail, py_split "=" ("--port=" +:+ value +:+ tail) !! 1%nat
                  = head (py_split "=" (value +:+ tail))) as Hsplit.
  { intros tail. change ("--port=" +:+ value +:+ tail)
      with ("--port" +:+ String "=" (value +:+ tail)).
    rewrite py_split_app by done. by destruct (py_split "=" (value +:+ tail)). }
  assert (∀ tail, py_in "--port=" ("--port=" +:+ value +:+ tail) = true) as Hin
    by (intros; apply py_in_prefix, prefix_app).
  split; [|intros more].
  - specialize (Hsplit ""). specialize (Hin ""). rewrite app_empty_r in Hsplit, Hin.
    cbn [scan_port]. rewrite Hin, Hsplit.
    replace (head (py_split "=" value)) with (Some value); [done|].
    clear Hsplit Hin. induction value as [|c value IH]; [done|].
    cbn [all_chars] in Hvalue. apply andb_true_iff in Hvalue as [Hc Hvalue].
    apply negb_true_iff in Hc. specialize (IH Hvalue). simpl. rewrite Hc.
    destruct (py_split "=" value) as [|piece pieces]; [done|].
    simpl in IH. by injection IH as ->.
  - cbn [scan_port]. rewrite Hin, Hsplit.
    change ("=" +:+ more) with (String "=" more).
    by rewrite py_split_app.
Qed.

Lemma port_of_entry_witness :
  scan_port ["--port=" +:+ "8888"] None initial = (Ok (Some "8888"), initial) ∧
  ∀ more, scan_port ["--port=" +:+ "8888" +:+ "=" +:+ more] None initial
          = (Ok (Some "8888"), initial).
Proof. apply (port_of_entry "8888" initial). reflexivity. Defined.

(** ** What [main] can come to *)

Lemma main_pop_failed (W : world) (stdin : string) (v : json) (e : exn) (st : state) :
  json_load W stdin = inl v →
  pop_action v (logged [start_record W] st) = (Raise e, logged [start_record W] st) →
  main W stdin st = (Raise e, logged [start_record W] st).
Proof.
  intros Hload Hpop. unfold main.
  rewrite (bind_ok _ _ st _ ()) by reflexivity.
  erewrite bind_ok;
    [|erewrite try_except_passed; [reflexivity|unfold py_json_load; by rewrite Hload]].
  by erewrite bind_raise.
Qed.

(** A run of [main] ends before any executor, or is a run of [kill], or
    is a run of [spawn]. *)
Lemma main_cases (W : world) (stdin : string) (st : state) :
  (∃ o records, main W stdin st = (o, logged records st) ∧ ∀ u, o ≠ Ok u) ∨
  (∃ pid signal, main W stdin st = kill W pid signal (logged [start_record W] st)) ∨
  (∃ args env, main W stdin st = spawn W args env (logged [start_record W] st)).
Proof.
  destruct (json_load W stdin) as [v|msg] eqn:Hload.
  2: { left. eexists _, _. by rewrite (main_decode_error W stdin msg st Hload). }
  assert (∀ e, pop_action v (logged [start_record W] st)
               = (Raise e, logged [start_record W] st) →
               ∃ o records, main W stdin st = (o, logged records st) ∧ ∀ u, o ≠ Ok u)
    as Hfail.
  { intros e He. eexists _, _. by rewrite (main_pop_failed W stdin v e st Hload He). }
  destruct v as [|b|n|lit|s|items|d]; try (left; by eapply Hfail).
  destruct (d !! "action") as [action|] eqn:Hact.
  2: { left. eapply Hfail. unfold pop_action. by rewrite Hact. }
  rewrite (main_dispatch W stdin d action st Hload Hact).
  destruct (py_eq_str action "kill").
  - unfold call_kill. case_bool_decide; [|left; by eexists _, _].
    destruct (delete "action" d !! "pid") as [[]|];
      try (left; by eexists _, _).
    destruct (delete "action" d !! "signal") as [[]|];
      try (left; by eexists _, _).
    right; left. eauto.
  - destruct (py_eq_str action "spawn"); [|left; by eexists _, _].
    unfold call_spawn. case_bool_decide; [|left; by eexists _, _].
    destruct (delete "action" d !! "args") as [[]|];
      try (left; by eexists _, _).
    destruct (delete "action" d !! "env") as [[]|];
      try (left; by eexists _, _).
    destruct (mapM as_str _); [|left; by eexists _, _].
    destruct (as_str_map _); [|left; by eexists _, _].
    right; right. eauto.
Qed.

(** X8. A decoded dictionary without an [action] makes [pop] raise
    [KeyError]: the run ends with status 1 before any executor, with
    nothing written and no program started. *)
Theorem main_missing_action (W : world) (stdin : string) (d : gmap string json) :
  json_load W stdin = inl (JObj d) →
  d !! "action" = None →
  run_mediator W stdin = (Raise (KeyError "action"), logged [start_record W] initial) ∧
  exit_status (fst (run_mediator W stdin)) = Some 1.
Proof.
  intros Hload Hact. unfold run_mediator.
  rewrite (main_pop_failed W stdin (JObj d) (KeyError "action") initial Hload); [done|].
  unfold pop_action. by rewrite Hact.
Qed.

Lemma main_missing_action_witness :
  run_mediator lab lab_actionless_text =
    (Raise (KeyError "action"), logged [start_record lab] initial) ∧
  exit_status (fst (run_mediator lab lab_actionless_text)) = Some 1.
Proof.
  apply (main_missing_action lab lab_actionless_text
           {[ "pid" := JInt 1234; "signal" := JInt 0 ]});
    [vm_compute; reflexivity | reflexivity].
Defined.

(** X9. Valid JSON that is not an object (a list, a number, a string, a
    boolean, null) has no usable [pop]: the run ends with [TypeError] for
    a list and [AttributeError] otherwise, status 1, nothing written and
    no program started. *)
Theorem main_not_an_object (W : world) (stdin : string) (v : json) :
  json_load W stdin = inl v →
  (∀ d, v ≠ JObj d) →
  ∃ e, run_mediator W stdin = (Raise e, logged [start_record W] initial) ∧
       exit_status (Raise e) = Some 1 ∧
       match v with
       | JArr _ => ∃ msg, e = TypeError msg
       | _ => ∃ msg, e = AttributeError msg
       end.
Proof.
  intros Hload Hobj. unfold run_mediator.
  destruct v as [|b|n|lit|s|items|d]; [..|by destruct (Hobj d)];
    (eexists; split; [by apply (main_pop_failed W stdin _ _ initial Hload)|]);
    eauto.
Qed.

Lemma main_not_an_object_witness :
  ∃ e, run_mediator lab lab_list_text = (Raise e, logged [start_record lab] initial) ∧
       exit_status (Raise e) = Some 1 ∧
       ∃ msg, e = TypeError msg.
Proof.
  apply (main_not_an_object lab lab_list_text (JArr [JInt 1; JInt 2]));
    [vm_compute; reflexivity | discriminate].
Defined.

(** X10. The fields of a request besides [action] are passed as keywords,
    so they must be exactly the parameters of the executor: a kill
    request with a field beyond [pid] and [signal], or short of one, and a
    spawn request with fields other than [args] and [env], end with
    [TypeError] and status 1 before the executor runs. *)
Theorem main_rejects_other_fields (W : world) (stdin : string) (d : gmap string json) :
  json_load W stdin = inl (JObj d) →
  (d !! "action" = Some (JStr "kill") ∧
   dom (delete "action" d) ≠ ({["pid"; "signal"]} : gset string)) ∨
  (d !! "action" = Some (JStr "spawn") ∧
   dom (delete "action" d) ≠ ({["args"; "env"]} : gset string)) →
  ∃ msg, run_mediator W stdin = (Raise (TypeError msg), logged [start_record W] initial) ∧
         exit_status (fst (run_mediator W stdin)) = Some 1.
Proof.
  intros Hload [[Hact Hdom]|[Hact Hdom]]; unfold run_mediator;
    rewrite (main_dispatch W stdin d _ initial Hload Hact);
    cbn [py_eq_str String.eqb Ascii.eqb Bool.eqb]; unfold call_kill, call_spawn;
    rewrite bool_decide_eq_false_2 by done; eauto.
Qed.

Lemma main_rejects_other_fields_witness :
  ∃ msg, run_mediator lab lab_forced_text =
           (Raise (TypeError msg), logged [start_record lab] initial) ∧
         exit_status (fst (run_mediator lab lab_forced_text)) = Some 1.
Proof.
  apply (main_rejects_other_fields lab lab_forced_text
           {[ "action" := JStr "kill"; "pid" := JInt 1234; "signal" := JInt 0;
              "force" := JBool true ]});
    [vm_compute; reflexivity|].
  left. split; [reflexivity|]. apply (bool_decide_eq_false_1 _). vm_compute. reflexivity.
Defined.

(** ** What a run leaves on standard output *)

Lemma kill_output (W : world) (pid signal : Z) (st : state) :
  detached st = false →
  stdout (snd (kill W pid signal st)) = stdout st ∨
  (fst (kill W pid signal st) = Ok () ∧
   ∃ alive, stdout (snd (kill W pid signal st)) = stdout st +:+ json_dump (KillResult alive)).
Proof.
  intros Hdet.
  unfold kill, check_output, Popen, finish, write, written, app_log, read_local, raise.
  unfold mbind, M_bind, mret, M_ret. cbn [detached logged called].
  destruct (signal =? 0).
  - destruct (run W _) as [c|]; [|by left].
    destruct (returncode c =? 0); [|by left].
    destruct (find_job_state W (captured c)); [|by left].
    destruct (bool_decide (signal ∈ [2; 9; 15])).
    + destruct (run W _) as [c'|]; [|by left].
      destruct (returncode c' =? 0); cbn; rewrite Hdet; right;
        (split; [done|first [by exists false | by eexists]]).
    + cbn. rewrite Hdet. right. split; [done|by eexists].
  - destruct (bool_decide (signal ∈ [2; 9; 15])); [|by left].
    destruct (run W _) as [c'|]; [|by left].
    destruct (returncode c' =? 0); [|by left].
    cbn. rewrite Hdet. right. split; [done|by exists false].
Qed.

Lemma spawn_output (W : world) (args : list string) (env : gmap string string)
    (st : state) :
  detached st = false →
  stdout (snd (spawn W args env st)) = stdout st ∨
  (fst (spawn W args env st) = Ok () ∧
   ∃ pid, stdout (snd (spawn W args env st)) = stdout st +:+ json_dump (SpawnResult pid)).
Proof.
  intros Hdet.
  destruct (has_port args) eqn:Hport; [|left; by rewrite spawn_without_port].
  destruct (env !! "JPY_API_TOKEN") as [token|] eqn:Htok;
    [|left; by rewrite spawn_without_token].
  destruct (spawn_eq W args env st token Hport Htok) as (port & _ & ->).
  cbn. rewrite Hdet. unfold child_text.
  destruct (submitted_job W _ _) as [pid|]; [right; eauto|left; apply app_empty_r].
Qed.

(** X11. Standard output after a run that stays within the types of the
    protocol holds one complete result or nothing: it is empty unless [main] returned normally, and then it is empty or
    exactly the JSON text of one result.  No run leaves a partial
    result, and no failed run leaves any. *)
Theorem run_output_all_or_nothing (W : world) (stdin : string) :
  fst (run_mediator W stdin) ≠ Untyped →
  stdout (snd (run_mediator W stdin)) = "" ∨
  (fst (run_mediator W stdin) = Ok () ∧
   ∃ data, stdout (snd (run_mediator W stdin)) = json_dump data).
Proof.
  intros _. unfold run_mediator.
  destruct (main_cases W stdin initial)
    as [(o & records & -> & _)|[(pid & signal & ->)|(args & env & ->)]].
  - by left.
  - destruct (kill_output W pid signal (logged [start_record W] initial))
      as [->|[Hok [alive ->]]]; [done|by left|right; eauto].
  - destruct (spawn_output W args env (logged [start_record W] initial))
      as [->|[Hok [pid' ->]]]; [done|by left|right; eauto].
Qed.

Lemma run_output_all_or_nothing_witness :
  stdout (snd (run_mediator lab lab_kill_text)) = "" ∨
  (fst (run_mediator lab lab_kill_text) = Ok () ∧
   ∃ data, stdout (snd (run_mediator lab lab_kill_text)) = json_dump data).
Proof. apply (run_output_all_or_nothing lab lab_kill_text). by vm_compute. Defined.

(** X12. A run that stays within the types of the protocol starts at most
    one external program. *)
Theorem run_starts_at_most_one_program (W : world) (stdin : string) :
  fst (run_mediator W stdin) ≠ Untyped →
  (length (calls (snd (run_mediator W stdin))) ≤ 1)%nat.
Proof.
  intros _. unfold run_mediator.
  destruct (main_cases W stdin initial)
    as [(o & records & -> & _)|[(pid & signal & ->)|(args & env & ->)]].
  - cbn. lia.
  - rewrite kill_calls. cbn [calls logged initial app].
    destruct (signal =? 0); [cbn; lia|]. destruct (bool_decide _); cbn; lia.
  - destruct (spawn_cases W args env (logged [start_record W] initial))
      as [->|[->|(text & script & records & ->)]]; cbn; lia.
Qed.

Lemma run_starts_at_most_one_program_witness :
  (length (calls (snd (run_mediator lab lab_spawn_text))) ≤ 1)%nat.
Proof.
  apply (run_starts_at_most_one_program lab lab_spawn_text). by vm_compute.
Defined.

(** ** [spawn] from request to result *)

(** X13. When [qsub] answers [<number>.<host>], a spawn request with its
    port entry and token ends with status 0 and standard output holding
    exactly the JSON text of [{'pid': number}], [qsub] being the one
    program started. *)
Theorem spawn_reports_job_number (W : world) (stdin : string) (args : list string)
    (env : gmap string string) (token : string) (pid : Z) :
  json_load W stdin = inl (spawn_request args env) →
  has_port args = true →
  env !! "JPY_API_TOKEN" = Some token →
  (∀ script, ∃ c host, run W (qsub W (sanitized env) script) = Some c ∧
                       captured c = pretty pid +:+ "." +:+ host ∧
                       is_ascii host = true) →
  fst (run_mediator W stdin) = Ok () ∧
  exit_status (fst (run_mediator W stdin)) = Some 0 ∧
  stdout (snd (run_mediator W stdin)) = json_dump (SpawnResult pid) ∧
  ∃ script, calls (snd (run_mediator W stdin)) = [qsub W (sanitized env) script].
Proof.
  intros Hload Hport Htok Hanswer. unfold run_mediator.
  rewrite (main_spawn W stdin args env initial Hload).
  destruct (spawn_eq W args env (logged [start_record W] initial) token Hport Htok)
    as (port & _ & ->). cbv zeta.
  match goal with |- context [child_text W ?e ?s] =>
    destruct (Hanswer s) as (c & host & Hrun & Hout & Hhost);
    unfold child_text;
    rewrite (submitted_job_reads_number W e s host c pid Hrun Hout Hhost)
  end.
  cbn. eauto.
Qed.

Lemma spawn_reports_job_number_witness :
  fst (run_mediator lab lab_spawn_text) = Ok () ∧
  exit_status (fst (run_mediator lab lab_spawn_text)) = Some 0 ∧
  stdout (snd (run_mediator lab lab_spawn_text)) = json_dump (SpawnResult 5678) ∧
  ∃ script, calls (snd (run_mediator lab lab_spawn_text)) = [qsub lab (sanitized lab_env) script].
Proof.
  apply (spawn_reports_job_number lab lab_spawn_text ["--port=8888"] lab_env "abc" 5678);
    [vm_compute; reflexivity | reflexivity | reflexivity |].
  intros script. exists (Completed 0 ("5678.lab" +:+ newline)), ("lab" +:+ newline).
  repeat split.
Defined.

(** X14. When the child cannot read a job number (because [qsub] could not
    be started, or its answer does not begin with an integer), nothing
    comes through the pipe; the parent relays nothing and returns: the
    run ends with status 0 and empty standard output. *)
Theorem spawn_failure_is_silent (W : world) (stdin : string) (args : list string)
    (env : gmap string string) (token : string) :
  json_load W stdin = inl (spawn_request args env) →
  has_port args = true →
  env !! "JPY_API_TOKEN" = Some token →
  (∀ script, submitted_job W (sanitized env) script = None) →
  fst (run_mediator W stdin) = Ok () ∧
  exit_status (fst (run_mediator W stdin)) = Some 0 ∧
  stdout (snd (run_mediator W stdin)) = "".
Proof.
  intros Hload Hport Htok Hnone. unfold run_mediator.
  rewrite (main_spawn W stdin args env initial Hload).
  destruct (spawn_eq W args env (logged [start_record W] initial) token Hport Htok)
    as (port & _ & ->). cbv zeta.
  unfold child_text. by rewrite Hnone.
Qed.

Lemma spawn_failure_is_silent_witness :
  fst (run_mediator lab_garbled lab_spawn_text) = Ok () ∧
  exit_status (fst (run_mediator lab_garbled lab_spawn_text)) = Some 0 ∧
  stdout (snd (run_mediator lab_garbled lab_spawn_text)) = "".
Proof.
  apply (spawn_failure_is_silent lab_garbled lab_spawn_text ["--port=8888"] lab_env "abc");
    [vm_compute; reflexivity | reflexivity | reflexivity | reflexivity].
Defined.

(** ** The JSON text of a job number *)

Lemma take_digits_app (ds tail : string) :
  all_chars is_digit ds = true →
  (∀ c rest, tail = String c rest → is_digit c = false) →
  take_digits (ds +:+ tail) = (ds, tail).
Proof.
  intros Hds Htail. induction ds as [|c ds IH].
  - change ("" +:+ tail) with tail. destruct tail as [|c rest]; [done|].
    simpl. by rewrite (Htail c rest).
  - cbn [all_chars] in Hds. apply andb_true_iff in Hds as [Hc Hds].
    rewrite app_String. simpl. by rewrite Hc, IH.
Qed.

Lemma parse_number_digits (c : ascii) (ds : string) :
  is_digit c = true → c ≠ "0"%char → all_chars is_digit ds = true →
  parse_number (String c ds +:+ "}") = Some (JInt (digits_value 0 (String c ds)), "}") ∧
  parse_number ("-" +:+ String c ds +:+ "}")
    = Some (JInt (- digits_value 0 (String c ds)), "}").
Proof.
  intros Hc Hnz Hds.
  assert (take_digits (ds +:+ "}") = (ds, "}")) as Htake.
  { apply take_digits_app; [done|]. by intros ? ? [= <- <-]. }
  unfold parse_number.
  change ("-" +:+ String c ds +:+ "}") with (String "-" (String c ds +:+ "}")).
  rewrite !app_String in *.
  split; by_digit Hc; try done; cbn; vm_compute (is_digit _); rewrite Htake; reflexivity.
Qed.

Lemma parse_value_number (fuel : nat) (c : ascii) (body : string) :
  is_digit c = true →
  parse_value (S fuel) (String " " (String c body)) = parse_number (String c body) ∧
  parse_value (S fuel) (String " " (String "-" (String c body)))
    = parse_number (String "-" (String c body)).
Proof. intros H. by by_digit H. Qed.

Lemma parse_pid_object (fuel : nat) (v : json) (body : string) :
  parse_value fuel (String " " body) = Some (v, "}") →
  parse_value (S (S fuel)) ("{" +:+ dquote +:+ "pid" +:+ dquote +:+ ": " +:+ body)
    = Some (JObj {[ "pid" := v ]}, "").
Proof.
  intros H.
  change ("{" +:+ dquote +:+ "pid" +:+ dquote +:+ ": " +:+ body)
    with (String "{" (String (ascii_of_nat 34) (String "p" (String "i" (String "d"
            (String (ascii_of_nat 34) (String ":" (String " " body)))))))).
  simpl. rewrite H. reflexivity.
Qed.

Lemma json_loads_pid_object (v : json) (body : string) :
  (∀ fuel, parse_value (S fuel) (String " " body) = Some (v, "}")) →
  json_loads ("{" +:+ dquote +:+ "pid" +:+ dquote +:+ ": " +:+ body)
    = inl (JObj {[ "pid" := v ]}).
Proof.
  intros H. unfold json_loads.
  assert (∃ fuel, (2 * String.length ("{" +:+ dquote +:+ "pid" +:+ dquote +:+ ": " +:+ body)
                   + 2)%nat = S (S (S fuel))) as [fuel ->].
  { exists (2 * String.length (dquote +:+ "pid" +:+ dquote +:+ ": " +:+ body) + 1)%nat.
    change (String.length ("{" +:+ dquote +:+ "pid" +:+ dquote +:+ ": " +:+ body))
      with (S (String.length (dquote +:+ "pid" +:+ dquote +:+ ": " +:+ body))).
    lia. }
  by rewrite (parse_pid_object (S fuel) v body (H fuel)).
Qed.

(** The decoder reads the text [finish] writes for a job number back as
    the object whose one member is that number. *)
Lemma json_loads_pid (n : Z) :
  json_loads (json_dump (SpawnResult n)) = inl (JObj {[ "pid" := JInt n ]}).
Proof.
  unfold json_dump. apply json_loads_pid_object. intros fuel.
  destruct n as [|p|p]; [done|..];
    destruct (pretty_positive_digits p) as (c & rest & Hp & Hnz & Hall & Hval);
    cbn [all_chars] in Hall; apply andb_true_iff in Hall as [Hc Hrest];
    destruct (parse_number_digits c rest Hc Hnz Hrest) as [Hpos Hneg];
    destruct (parse_value_number fuel c (rest +:+ "}") Hc) as [Hvpos Hvneg].
  - rewrite Hp, app_String, Hvpos, <-app_String, Hpos. by rewrite Hval.
  - change (pretty (Z.neg p)) with ("-" +:+ pretty (Z.pos p)).
    rewrite Hp. change ("-" +:+ String c rest) with (String "-" (String c rest)).
    rewrite !app_String, Hvneg.
    change (String "-" (String c (rest +:+ "}"))) with ("-" +:+ String c rest +:+ "}").
    rewrite Hneg. by rewrite Hval.
Qed.

(** ** The command text *)

Lemma prefix_app_l (t a b : string) :
  String.prefix t a = true → String.prefix t (a +:+ b) = true.
Proof.
  revert a. induction t as [|c t IH]; intros a; [by destruct a, b|].
  destruct a as [|d a]; [done|]. rewrite app_String. simpl.
  destruct (ascii_dec c d); [apply IH|done].
Qed.

Lemma py_in_app_l (t a b : string) : py_in t a = true → py_in t (a +:+ b) = true.
Proof.
  induction a as [|c a IH].
  - change (String.prefix t "" || false = true → py_in t b = true).
    rewrite orb_false_r. destruct t; [|done]. intros _. apply py_in_prefix. by destruct b.
  - change (String.prefix t (String c a) || py_in t a = true →
            String.prefix t (String c a +:+ b) || py_in t (a +:+ b) = true).
    intros [H|H]%orb_true_iff.
    + by rewrite (prefix_app_l t (String c a) b H).
    + rewrite (IH H). apply orb_true_r.
Qed.

Lemma py_in_app_r (t a b : string) : py_in t b = true → py_in t (a +:+ b) = true.
Proof.
  intros H. induction a as [|c a IH]; [done|].
  change (String.prefix t (String c a +:+ b) || py_in t (a +:+ b) = true).
  rewrite IH. apply orb_true_r.
Qed.

Lemma concat_cons (sep x : string) (l : list string) :
  l ≠ [] → String.concat sep (x :: l) = x +:+ sep +:+ String.concat sep l.
Proof. by destruct l. Qed.

(** X15. The token goes into the log and into the job script in the clear:
    a spawn request with its port entry and token hands [app_log.info] a
    command text that contains the token, and hands [qsub] a script that
    contains it. *)
Theorem spawn_exposes_token (W : world) (args : list string)
    (env : gmap string string) (st : state) (token : string) :
  has_port args = true →
  env !! "JPY_API_TOKEN" = Some token →
  ∃ cmd_s passed script,
    LogRecord INFO "Spawning %s" [ArgStr cmd_s] ∈ log (snd (spawn W args env st)) ∧
    py_in token cmd_s = true ∧
    calls (snd (spawn W args env st)) = calls st ++ [qsub W passed script] ∧
    py_in token script = true.
Proof.
  intros Hport Htok.
  destruct (spawn_eq W args env st token Hport Htok) as (port & _ & ->). cbv zeta.
  set (cmd_s := String.concat " " (export_statement "JPY_API_TOKEN" token
                  :: sys_executable W :: "-m" :: "jupyterhub.singleuser" :: args)).
  exists cmd_s, (sanitized env), (job_script W port cmd_s).
  assert (py_in token cmd_s = true) as Hin.
  { unfold cmd_s. rewrite concat_cons by done. apply py_in_app_l. unfold export_statement.
    do 3 apply py_in_app_r. apply py_in_prefix, prefix_app. }
  split; [|split; [done|split; [reflexivity|]]].
  - cbn [snd log written called fresh_pipe logged].
    rewrite elem_of_app. right. unfold spawn_records. apply elem_of_cons. by left.
  - unfold job_script. by apply py_in_app_r.
Qed.


Lemma spawn_exposes_token_witness :
  ∃ cmd_s passed script,
    LogRecord INFO "Spawning %s" [ArgStr cmd_s]
      ∈ log (snd (spawn lab ["--port=8888"] lab_env initial)) ∧
    py_in "abc" cmd_s = true ∧
    calls (snd (spawn lab ["--port=8888"] lab_env initial))
      = calls initial ++ [qsub lab passed script] ∧
    py_in "abc" script = true.
Proof.
  apply (spawn_exposes_token lab ["--port=8888"] lab_env initial "abc"); reflexivity.
Defined.

Lemma concat_merge (pre post : list string) (a b : string) :
  String.concat " " (pre ++ a :: b :: post)
  = String.concat " " (pre ++ (a +:+ " " +:+ b) :: post).
Proof.
  induction pre as [|x pre IH].
  - cbn [app]. rewrite concat_cons by done. destruct post as [|p post]; [done|].
    rewrite !(concat_cons " " _ (p :: post)) by done.
    by rewrite !app_assoc_string.
  - cbn [app]. rewrite !concat_cons by by destruct pre. by rewrite IH.
Qed.

(** X16. The command is joined with single spaces and nothing is quoted, so
    the text does not keep the boundaries of the arguments: two
    arguments [a] and [b] give the same command text as the one argument
    [a b], though the lists differ. *)
Theorem launch_text_merges_arguments (W : world) (pre post : list string) (a b : string)
    (env : gmap string string) (st : state) (token : string) :
  env !! "JPY_API_TOKEN" = Some token →
  ∃ cmd cmd',
    launch_command W (pre ++ a :: b :: post) env st = (Ok cmd, st) ∧
    launch_command W (pre ++ (a +:+ " " +:+ b) :: post) env st = (Ok cmd', st) ∧
    length cmd = S (length cmd') ∧
    String.concat " " cmd = String.concat " " cmd'.
Proof.
  intros Htok. eexists _, _.
  split; [by apply launch_command_eq|]. split; [by apply launch_command_eq|]. split.
  - cbn [length]. rewrite !length_app. cbn [length]. lia.
  - apply (concat_merge (_ :: _ :: _ :: _ :: pre) post a b).
Qed.

Lemma launch_text_merges_arguments_witness :
  ∃ cmd cmd',
    launch_command lab ([] ++ "--port=8888" :: "--debug" :: []) lab_env initial
      = (Ok cmd, initial) ∧
    launch_command lab ([] ++ ("--port=8888" +:+ " " +:+ "--debug") :: []) lab_env initial
      = (Ok cmd', initial) ∧
    length cmd = S (length cmd') ∧
    String.concat " " cmd = String.concat " " cmd'.
Proof.
  apply (launch_text_merges_arguments lab [] [] "--port=8888" "--debug" lab_env initial "abc").
  reflexivity.
Defined.

(** ** [finish] on a job number *)

(** X17. [finish] writes the JSON text of [{'pid': pid}] to the pipe and
    leaves standard output alone; decoded, the text is the object whose
    single member is that integer, for every integer. *)
Theorem finish_pid_round_trip (pid : Z) (st : state) :
  fst (finish (SpawnResult pid) pipe_w st) = Ok () ∧
  pipe (snd (finish (SpawnResult pid) pipe_w st)) = pipe st +:+ json_dump (SpawnResult pid) ∧
  stdout (snd (finish (SpawnResult pid) pipe_w st)) = stdout st ∧
  json_loads (json_dump (SpawnResult pid)) = inl (JObj {[ "pid" := JInt pid ]}).
Proof.
  rewrite finish_eq. repeat split. apply json_loads_pid.
Qed.
